(** * SpatialPointReasoner.invoke_async: a shallow embedding

    Source: src/hcaptcha_challenger/tools/spatial_point_reasoning.py

    The adapter uploads two images, assembles one user turn, calls the hosted
    model once and decodes the answer; the whole body is wrapped by tenacity's
    [@retry(stop=stop_after_attempt(3), wait=wait_fixed(3), before_sleep=...)].

    Effects are modelled by explicit state passing over a [World] holding the
    chronological trace of observable events and the solver object [self].
    The provider (genai client), the event loop's choice of which upload
    finishes first, and the helpers imported from other modules are section
    parameters. *)

From Stdlib Require Import ZArith List Ascii.
From stdpp Require Import base gmap strings list option.

Set Warnings "-register-all,-clear-no-such-hyp".

(* ===================================================================== *)
(** ** Python values *)
(* ===================================================================== *)

(** The values that flow through [**kwargs], [auxiliary_information] and the
    decoded JSON.  A finite float is held exactly, as [m * 2^e]. *)
Inductive PyVal :=
| PyNone
| PyBool (b : bool)
| PyInt (n : Z)
| PyFloat (m e : Z)
| PyStr (s : string)
| PyList (l : list PyVal)
| PyDict (d : gmap string PyVal).

(** [v is None] *)
Definition is_None (v : PyVal) : bool :=
  match v with PyNone => true | _ => false end.

(** [bool(v)]: Python truthiness. *)
Definition truthy (v : PyVal) : bool :=
  match v with
  | PyNone => false
  | PyBool b => b
  | PyInt n => negb (n =? 0)%Z
  | PyFloat m _ => negb (m =? 0)%Z
  | PyStr s => negb (bool_decide (s = ""))
  | PyList l => match l with [] => false | _ => true end
  | PyDict d => negb (bool_decide (d = ∅))
  end.

(** [isinstance(v, str)] *)
Definition isinstance_str (v : PyVal) : bool :=
  match v with PyStr _ => true | _ => false end.

(** The characters of a [str] value. *)
Definition str_value (v : PyVal) : string :=
  match v with PyStr s => s | _ => "" end.

(** [isinstance(v, int)]; [bool] is a subclass of [int] in Python. *)
Definition isinstance_int (v : PyVal) : bool :=
  match v with PyInt _ | PyBool _ => true | _ => false end.

(** [v in l] for a list [l] of strings: only a string can compare equal. *)
Definition py_in (v : PyVal) (l : list string) : bool :=
  match v with PyStr s => bool_decide (s ∈ l) | _ => false end.

(** [kwargs.get(k)] *)
Definition kwargs_get (k : string) (kwargs : gmap string PyVal) : PyVal :=
  default PyNone (kwargs !! k).

(** [kwargs.pop(k, d)] returns [default d (kwargs !! k)] and leaves
    [delete k kwargs] behind; both are written out where the pop happens. *)

(* ===================================================================== *)
(** ** Exceptions and outcomes *)
(* ===================================================================== *)

(** Instances of Python's [Exception].  [ProviderError] stands for whatever
    the genai client raises; [RetryError] is tenacity's wrapper around the
    outcome of the last attempt. *)
Inductive exn :=
| ValueError (msg : string)
| TypeError (msg : string)
| ValidationError (msg : string)
| ProviderError (msg : string)
| RetryError (last_attempt : exn).

Inductive Outcome (A : Type) :=
| Return (a : A)
| Raise (e : exn).
Arguments Return {A} a.
Arguments Raise {A} e.

(* ===================================================================== *)
(** ** hcaptcha_challenger.models *)
(* ===================================================================== *)

Module Models.

(** Modelled from the spec: the module hcaptcha_challenger.models is not
    part of the sources at hand.  The spec gives the result shape as
    [{ challenge_prompt: string, points: ordered sequence of {x, y} }]. *)
Record PointCoordinate := { x : Z; y : Z }.

(** Modelled from the spec: see [PointCoordinate]. *)
Record ImageAreaSelectChallenge :=
  { challenge_prompt : string; points : list PointCoordinate }.

Definition point_dump (p : PointCoordinate) : PyVal :=
  PyDict (<["x" := PyInt (x p)]> (<["y" := PyInt (y p)]> ∅)).

(** Modelled from the spec: [self.model_dump()], the fields of a result as
    a dictionary, the points as dictionaries in turn. *)
Definition model_dump (c : ImageAreaSelectChallenge) : gmap string PyVal :=
  <["challenge_prompt" := PyStr (challenge_prompt c)]>
    (<["points" := PyList (map point_dump (points c))]> ∅).

Definition digit_value (c : ascii) : option Z :=
  let n := Z.of_nat (nat_of_ascii c) in
  if ((48 <=? n) && (n <=? 57))%Z then Some (n - 48)%Z else None.

Fixpoint digits_value (s : string) (acc : Z) : option Z :=
  match s with
  | EmptyString => Some acc
  | String c s' =>
      match digit_value c with
      | Some d => digits_value s' (10 * acc + d)%Z
      | None => None
      end
  end.

(** The integer written by a string of decimal digits with an optional
    sign. *)
Definition int_of_str (s : string) : option Z :=
  match s with
  | EmptyString => None
  | String c s' =>
      if bool_decide (c = "-"%char) then
        if bool_decide (s' = "") then None
        else Z.opp <$> digits_value s' 0
      else if bool_decide (c = "+"%char) then
        if bool_decide (s' = "") then None else digits_value s' 0
      else digits_value s 0
  end.

(** The integer a float [m * 2^e] equals, when it has no fractional part. *)
Definition int_of_float (m e : Z) : option Z :=
  if (0 <=? e)%Z then Some (m * 2 ^ e)%Z
  else if (m mod 2 ^ (- e) =? 0)%Z then Some (m / 2 ^ (- e))%Z
  else None.

(** Modelled from the spec: a coordinate is a number that the constructor
    validates or coerces.  An int is taken as it is, a bool as 0 or 1, a
    float when it has no fractional part, a string when it writes an
    integer; anything else is refused. *)
Definition coerce_int (v : PyVal) : option Z :=
  match v with
  | PyInt n => Some n
  | PyBool b => Some (if b then 1 else 0)%Z
  | PyFloat m e => int_of_float m e
  | PyStr s => int_of_str s
  | _ => None
  end.

(** Modelled from the spec: a point is a mapping with coordinates "x" and
    "y"; other keys are ignored. *)
Definition point_validate (v : PyVal) : option PointCoordinate :=
  match v with
  | PyDict d =>
      match d !! "x" ≫= coerce_int, d !! "y" ≫= coerce_int with
      | Some a, Some b => Some {| x := a; y := b |}
      | _, _ => None
      end
  | _ => None
  end.

Fixpoint points_validate (l : list PyVal) : option (list PointCoordinate) :=
  match l with
  | [] => Some []
  | v :: l' =>
      match point_validate v, points_validate l' with
      | Some p, Some ps => Some (p :: ps)
      | _, _ => None
      end
  end.

(** Modelled from the spec: the constructor call with the dictionary [d]
    unpacked as keyword arguments validates and coerces them into the result
    shape (a string prompt and a sequence of points) and raises otherwise.
    The adapter itself takes the constructor as a parameter; this one serves
    the concrete calls further down. *)
Definition model_validate (d : gmap string PyVal)
  : Outcome ImageAreaSelectChallenge :=
  match d !! "challenge_prompt", d !! "points" with
  | Some (PyStr s), Some (PyList l) =>
      match points_validate l with
      | Some ps => Return {| challenge_prompt := s; points := ps |}
      | None => Raise (ValidationError "points")
      end
  | Some (PyStr _), _ => Raise (ValidationError "points")
  | _, _ => Raise (ValidationError "challenge_prompt")
  end.

(** The constructor applied to an unpacked value [v]: unpacking needs a
    mapping. *)
Definition construct (v : PyVal) : Outcome ImageAreaSelectChallenge :=
  match v with
  | PyDict d => model_validate d
  | _ => Raise (TypeError "argument after ** must be a mapping")
  end.

End Models.

(* ===================================================================== *)
(** ** google.genai types *)
(* ===================================================================== *)

(** What [client.aio.files.upload] returns; only [uri] and [mime_type] are
    read. *)
Record File := { uri : string; mime_type : string }.

Inductive Part :=
| from_uri (file_uri : string) (mime : string)
| from_text (text : string).

Record Content := { role : string; parts : list Part }.

Record ThinkingConfig :=
  { include_thoughts : bool; thinking_budget : PyVal }.

(** The class handed over as [response_schema]. *)
Inductive Schema := ImageAreaSelectChallenge_schema.

Record GenerateContentConfig := {
  temperature : Z;
  system_instruction : option string;
  thinking_config : option ThinkingConfig;
  response_mime_type : option string;
  response_schema : option Schema
}.

Record GenerateContentResponse := {
  text : option string;
  parsed : option Models.ImageAreaSelectChallenge
}.

Definition set_thinking_config (t : ThinkingConfig) (c : GenerateContentConfig)
  : GenerateContentConfig :=
  {| temperature := temperature c;
     system_instruction := system_instruction c;
     thinking_config := Some t;
     response_mime_type := response_mime_type c;
     response_schema := response_schema c |}.

Definition set_response_format (m : string) (s : Schema)
  (c : GenerateContentConfig) : GenerateContentConfig :=
  {| temperature := temperature c;
     system_instruction := system_instruction c;
     thinking_config := thinking_config c;
     response_mime_type := Some m;
     response_schema := Some s |}.

(* ===================================================================== *)
(** ** Module constants *)
(* ===================================================================== *)

Definition dq : string := String (ascii_of_nat 34) EmptyString.

Definition THINKING_PROMPT : string :=
  "
**Rule for 'Find the Different Object' Tasks:**

*   **Constraint:** Do **NOT** consider size differences caused by perspective (near/far).
*   **Focus:** Identify difference based **only** on object outline, shape, and core structural features.

**Core Principles for Visual Analysis:**

*   **Processing Order:** Always analyze **Global Context** before **Local Details**.
*   **Perspective:** Maintain awareness of the overall scene (" +:+ dq +:+
  "look outside the immediate focus" +:+ dq +:+ ") when interpreting specific elements.
*   **Validation:** Ensure local interpretations are consistent with the global context to avoid settling for potentially incorrect "
  +:+ dq +:+ "local optima" +:+ dq +:+ ".
*   **Method:** Employ a calm, systematic, top-down (Global-to-Local) analysis workflow.

**Workflow:**
1. Identify challenge prompt about the Challenge Image
2. Think about what the challenge requires identification goals, and where are they in the picture
3. Based on the plane rectangular coordinate system, reasoning about the absolute position of the "
  +:+ dq +:+ "answer object" +:+ dq +:+ " in the coordinate system

Finally, solve the challenge, locate the object, output the coordinates of the correct answer as json. Follow the following format to return a coordinates wrapped with a json code block:

```json
{
  " +:+ dq +:+ "challenge_prompt" +:+ dq +:+ ": " +:+ dq +:+ "Task description" +:+ dq +:+ ",
  " +:+ dq +:+ "points" +:+ dq +:+ ": [
    {" +:+ dq +:+ "x" +:+ dq +:+ ": x1, " +:+ dq +:+ "y" +:+ dq +:+ ": y1}
  ]
}
```
".

(** The one model for which line 122 forces free-text decoding. *)
Definition LEGACY_MODELS : list string :=
  ["gemini-2.0-flash-thinking-exp-01-21"].

Definition NO_MODEL_MESSAGE : string :=
  "Model must be provided either at initialization or via kwargs.".

(* ===================================================================== *)
(** ** Events, the provider and the solver object *)
(* ===================================================================== *)

(** [Union[str, Path, os.PathLike]] *)
Definition Path := string.

(** What an observer of one call can see, in chronological order: an upload
    request leaving, an upload completing, the inference call with its
    request and its reply, the warning of [before_sleep], and the sleep. *)
Inductive Event :=
| EvUploadStart (file : Path)
| EvUploadDone (file : Path) (r : Outcome File)
| EvGenerate (model : PyVal) (contents : list Content)
    (config : GenerateContentConfig) (r : Outcome GenerateContentResponse)
| EvWarning (attempt_number : nat) (exception : exn)
| EvSleep (seconds : Z).

(** [genai.Client]: the two remote operations the adapter uses.  A reply may
    depend on everything that happened before. *)
Record Client := {
  files_upload : list Event -> Path -> Outcome File;
  models_generate_content :
    list Event -> PyVal -> list Content -> GenerateContentConfig ->
    Outcome GenerateContentResponse
}.

(** Modelled from the spec: the base class [_Reasoner] is not part of the
    sources at hand.  Its constructor stores the credential, the default
    model and the default schema flag; [invoke_async] reads these three as
    [self._api_key], [self._model], [self._constraint_response_schema] and
    assigns [self._response]. *)
Record Reasoner := {
  _api_key : string;
  _model : option string;
  _constraint_response_schema : bool;
  _response : option GenerateContentResponse
}.

Record World := { trace : list Event; self : Reasoner }.

Definition is_network (ev : Event) : bool :=
  match ev with
  | EvUploadStart _ | EvUploadDone _ _ | EvGenerate _ _ _ _ => true
  | _ => false
  end.

Definition is_generate (ev : Event) : bool :=
  match ev with EvGenerate _ _ _ _ => true | _ => false end.

Definition is_warning (ev : Event) : bool :=
  match ev with EvWarning _ _ => true | _ => false end.

(* ===================================================================== *)
(** ** The effect monad *)
(* ===================================================================== *)

Definition M (A : Type) : Type := World -> World * Outcome A.

#[global] Instance M_ret : MRet M := fun A a w => (w, Return a).

#[global] Instance M_bind : MBind M := fun A B f m w =>
  match m w with
  | (w', Return a) => f a w'
  | (w', Raise e) => (w', Raise e)
  end.

Definition with_trace (t : list Event) (w : World) : World :=
  {| trace := t; self := self w |}.

Definition with_response (r : GenerateContentResponse) (s : Reasoner)
  : Reasoner :=
  {| _api_key := _api_key s;
     _model := _model s;
     _constraint_response_schema := _constraint_response_schema s;
     _response := Some r |}.

Definition raise {A} (e : exn) : M A := fun w => (w, Raise e).

Definition lift {A} (r : Outcome A) : M A := fun w => (w, r).

Definition emit (ev : Event) : M unit := fun w =>
  (with_trace (trace w ++ [ev]) w, Return tt).

Definition get_trace : M (list Event) := fun w => (w, Return (trace w)).

Definition get_self : M Reasoner := fun w => (w, Return (self w)).

(** [self._response = r] *)
Definition set_response (r : GenerateContentResponse) : M unit := fun w =>
  ({| trace := trace w; self := with_response r (self w) |}, Return tt).

(** An awaited remote operation: the reply is decided by the history so far
    and is recorded, then returned or raised. *)
Definition await {A} (reply : list Event -> Outcome A)
  (record : Outcome A -> Event) : M A := fun w =>
  let r := reply (trace w) in
  (with_trace (trace w ++ [record r]) w, r).

(** The events added to the trace between two worlds. *)
Definition new_events (w w' : World) : list Event :=
  drop (length (trace w)) (trace w').

(** The reply of the last inference call that returned, if any. *)
Fixpoint last_reply (d : list Event) : option GenerateContentResponse :=
  match d with
  | [] => None
  | ev :: d' =>
      match last_reply d' with
      | Some r => Some r
      | None =>
          match ev with
          | EvGenerate _ _ _ (Return r) => Some r
          | _ => None
          end
      end
  end.

(** How the solver and the trace after some part of a call relate to those
    before it: the three stored settings are the same, the trace has grown,
    and [_response] is the last reply received in between, if any. *)
Definition leaves (w w' : World) : Prop :=
  _api_key (self w') = _api_key (self w) /\
  _model (self w') = _model (self w) /\
  _constraint_response_schema (self w') =
    _constraint_response_schema (self w) /\
  trace w' = trace w ++ new_events w w' /\
  _response (self w') =
    match last_reply (new_events w w') with
    | Some resp => Some resp
    | None => _response (self w)
    end.

(* ===================================================================== *)
(** ** Test doubles *)
(* ===================================================================== *)

Module Stub.

Definition file_of (p : Path) : File :=
  {| uri := "files/" +:+ p; mime_type := "image/png" |}.

Definition answer (ps : list Models.PointCoordinate)
  : Models.ImageAreaSelectChallenge :=
  {| Models.challenge_prompt := "Task description"; Models.points := ps |}.

(** A provider whose uploads succeed and whose model replies with [r]. *)
Definition replying (r : GenerateContentResponse) (api_key : string)
  : Client :=
  {| files_upload := fun _ p => Return (file_of p);
     models_generate_content := fun _ _ _ _ => Return r |}.

(** A provider whose every operation raises [e]. *)
Definition failing (e : exn) (api_key : string) : Client :=
  {| files_upload := fun _ _ => Raise e;
     models_generate_content := fun _ _ _ _ => Raise e |}.

(** A provider whose uploads of [bad] fail and whose other calls work. *)
Definition rejecting (bad : Path) (e : exn) (r : GenerateContentResponse)
  (api_key : string) : Client :=
  {| files_upload := fun _ p =>
       if bool_decide (p = bad) then Raise e else Return (file_of p);
     models_generate_content := fun _ _ _ _ => Return r |}.

(** A provider whose uploads fail with [e] until two retries were logged. *)
Definition flaky (e : exn) (r : GenerateContentResponse) (api_key : string)
  : Client :=
  {| files_upload := fun t p =>
       if (length (List.filter is_warning t) <? 2)%nat
       then Raise e else Return (file_of p);
     models_generate_content := fun _ _ _ _ => Return r |}.

(** An extractor that finds no JSON block in any text. *)
Definition no_block (t : option string) : Outcome PyVal := Return PyNone.

(** An extractor that decodes every text to the value [v]. *)
Definition decoding (v : PyVal) (t : option string) : Outcome PyVal :=
  Return v.

Definition reply (ps : list Models.PointCoordinate)
  : GenerateContentResponse :=
  {| text := Some "{}"; parsed := Some (answer ps) |}.

(** A reply text: a sentence, then a fenced JSON block with the point
    (12, 34). *)
Definition answer_text : string :=
  "The odd one out is the lamp on the left.
```json
{" +:+ dq +:+ "challenge_prompt" +:+ dq +:+ ": " +:+ dq +:+
  "Task description" +:+ dq +:+ ", " +:+ dq +:+ "points" +:+ dq +:+ ": [{"
  +:+ dq +:+ "x" +:+ dq +:+ ": 12, " +:+ dq +:+ "y" +:+ dq +:+ ": 34}]}
```".

(** What [json.loads] makes of the block in [answer_text]. *)
Definition answer_block : PyVal :=
  PyDict (<["challenge_prompt" := PyStr "Task description"]>
            (<["points" :=
                 PyList [PyDict (<["x" := PyInt 12]>
                                   (<["y" := PyInt 34]> ∅))]]> ∅)).

(** An extractor that knows one text: it returns the block of
    [answer_text], finds no block in any other text, and cannot search
    [None]. *)
Definition reading (t : option string) : Outcome PyVal :=
  match t with
  | Some s =>
      if bool_decide (s = answer_text) then Return answer_block
      else Return PyNone
  | None => Raise (TypeError "expected string or bytes-like object")
  end.

(** A reply whose text is [answer_text] and whose pre-parsed object has the
    points [ps]. *)
Definition text_reply (ps : list Models.PointCoordinate)
  : GenerateContentResponse :=
  {| text := Some answer_text; parsed := Some (answer ps) |}.

Definition solver (model : option string) (flag : bool) : Reasoner :=
  {| _api_key := "key"; _model := model;
     _constraint_response_schema := flag; _response := None |}.

Definition start (model : option string) (flag : bool) : World :=
  {| trace := []; self := solver model flag |}.

Definition MODELS : list string := ["gemini-2.5-pro"; "gemini-2.5-flash"].

Definition in_order (t : list Event) : bool := true.

Definition reversed (t : list Event) : bool := false.

End Stub.

(* ===================================================================== *)
(** ** invoke_async *)
(* ===================================================================== *)

Section SpatialPointReasoner.

(** [genai.Client(api_key=...)] *)
Variable genai_Client : string -> Client.

(** The event loop: given the history with both uploads in flight, whether
    the first one completes first. *)
Variable first_completes_first : list Event -> bool.

(** [hcaptcha_challenger.models.THINKING_BUDGET_MODELS] *)
Variable THINKING_BUDGET_MODELS : list string.

(** [hcaptcha_challenger.tools.common.extract_first_json_block] *)
Variable extract_first_json_block : option string -> Outcome PyVal.

(** The constructor of [hcaptcha_challenger.models.ImageAreaSelectChallenge]
    called on a value unpacked as keyword arguments: it validates and coerces
    them into a result, or raises. *)
Variable ImageAreaSelectChallenge_new :
  PyVal -> Outcome Models.ImageAreaSelectChallenge.

(** [client.aio.files.upload(file=...)], the part after the request left. *)
Definition upload_done (client : Client) (file : Path) : M File :=
  await (fun t => files_upload client t file) (EvUploadDone file).

(** [await asyncio.gather(upload(a), upload(b))]: both requests are issued
    before either is awaited, they complete in the order the event loop
    picks, the first exception is raised at once, and the results come back
    in argument order. *)
Definition gather_uploads (client : Client) (a b : Path) : M (File * File) :=
  emit (EvUploadStart a);;
  emit (EvUploadStart b);;
  t ← get_trace;
  if first_completes_first t
  then fa ← upload_done client a; fb ← upload_done client b; mret (fa, fb)
  else fb ← upload_done client b; fa ← upload_done client a; mret (fa, fb).

(** [await client.aio.models.generate_content(model=, contents=, config=)] *)
Definition generate_content (client : Client) (model : PyVal)
  (contents : list Content) (config : GenerateContentConfig)
  : M GenerateContentResponse :=
  await (fun t => models_generate_content client t model contents config)
        (EvGenerate model contents config).

(** [self._model] as a Python value. *)
Definition stored_model (s : Reasoner) : PyVal :=
  match _model s with Some m => PyStr m | None => PyNone end.

(** Line 77: the value of [kwargs.pop("model", self._model)]. *)
Definition model_to_use (s : Reasoner) (kwargs : gmap string PyVal) : PyVal :=
  default (stored_model s) (kwargs !! "model").

(** Lines 81-86: the flag after the two overrides. *)
Definition effective_constraint_response_schema (s : Reasoner)
  (constraint_response_schema : option bool) (kwargs : gmap string PyVal)
  : PyVal :=
  let constraint_response_schema :=
    match constraint_response_schema with
    | None => _constraint_response_schema s
    | Some b => b
    end in
  let enable_response_schema := kwargs_get "enable_response_schema" kwargs in
  if negb (is_None enable_response_schema)
  then enable_response_schema
  else PyBool constraint_response_schema.

(** Lines 103-108 *)
Definition make_parts (files : File * File) (auxiliary_information : PyVal)
  : list Part :=
  let parts :=
    [ from_uri (uri (fst files)) (mime_type (fst files));
      from_uri (uri (snd files)) (mime_type (snd files)) ] in
  if truthy auxiliary_information && isinstance_str auxiliary_information
  then parts ++ [from_text (str_value auxiliary_information)]
  else parts.

(** Line 110 *)
Definition make_contents (files : File * File) (auxiliary_information : PyVal)
  : list Content :=
  [ {| role := "user"; parts := make_parts files auxiliary_information |} ].

(** Lines 112-119 *)
Definition make_config (model : PyVal) (kwargs : gmap string PyVal)
  : GenerateContentConfig :=
  let system_instruction := THINKING_PROMPT in
  let config :=
    {| temperature := 0;
       system_instruction := Some system_instruction;
       thinking_config := None;
       response_mime_type := None;
       response_schema := None |} in
  let thinking_budget := kwargs_get "thinking_budget" kwargs in
  if py_in model THINKING_BUDGET_MODELS && isinstance_int thinking_budget
  then set_thinking_config
         {| include_thoughts := true; thinking_budget := thinking_budget |}
         config
  else config.

(** Line 122: the test that selects free-text decoding. *)
Definition free_text_mode (constraint_response_schema model : PyVal) : bool :=
  negb (truthy constraint_response_schema) || py_in model LEGACY_MODELS.

(** The constructor applied to the first JSON block of the reply's text. *)
Definition from_text_block (r : GenerateContentResponse)
  : Outcome Models.ImageAreaSelectChallenge :=
  match extract_first_json_block (text r) with
  | Return v => ImageAreaSelectChallenge_new v
  | Raise e => Raise e
  end.

(** The decorated function's body, lines 77-139: one attempt. *)
Definition invoke_async_body (challenge_screenshot grid_divisions : Path)
  (auxiliary_information : PyVal) (constraint_response_schema : option bool)
  (kwargs : gmap string PyVal) : M Models.ImageAreaSelectChallenge :=
  s ← get_self;
  let model := model_to_use s kwargs in
  let kwargs := delete "model" kwargs in
  if is_None model then raise (ValueError NO_MODEL_MESSAGE) else
  let flag :=
    effective_constraint_response_schema s constraint_response_schema kwargs in
  let client := genai_Client (_api_key s) in
  files ← gather_uploads client challenge_screenshot grid_divisions;
  let contents := make_contents files auxiliary_information in
  let config := make_config model kwargs in
  if free_text_mode flag model then
    r ← generate_content client model contents config;
    set_response r;;
    lift (from_text_block r)
  else
    let config :=
      set_response_format "application/json" ImageAreaSelectChallenge_schema
        config in
    r ← generate_content client model contents config;
    set_response r;;
    (* [if _result := self._response.parsed]: an object is truthy *)
    match parsed r with
    | Some p =>
        lift (ImageAreaSelectChallenge_new (PyDict (Models.model_dump p)))
    | None => lift (from_text_block r)
    end.

(** tenacity's [stop_after_attempt(n)]: stop once [n] attempts were made. *)
Definition stop_after_attempt (max_attempt_number attempt_number : nat)
  : bool :=
  (max_attempt_number <=? attempt_number)%nat.

(** What tenacity does between two attempts: the [before_sleep] hook logs the
    failed attempt's number and exception, then the loop sleeps. *)
Definition before_sleep_then_sleep (attempt_number : nat) (e : exn) (wait : Z)
  : M unit :=
  emit (EvWarning attempt_number e);;
  emit (EvSleep wait).

(** The world after the pause that follows failed attempt [attempt_number]. *)
Definition slept (attempt_number : nat) (e : exn) (wait : Z) (w : World)
  : World :=
  fst (before_sleep_then_sleep attempt_number e wait w).

(** tenacity's loop for [retry(stop=stop_after_attempt(n), wait=wait_fixed(d),
    before_sleep=...)] with its defaults: every raised [Exception] asks for a
    retry, and since [reraise] is left at [False] the loop ends a failed last
    attempt with [RetryError] around that attempt's exception.  [fuel] bounds
    the rounds of the loop; [None] means it ran out. *)
Fixpoint retrying {A} (max_attempt_number : nat) (wait : Z) (fuel : nat)
  (attempt_number : nat) (fn : M A) (w : World)
  : option (World * Outcome A) :=
  match fuel with
  | O => None
  | S fuel' =>
      match fn w with
      | (w1, Return a) => Some (w1, Return a)
      | (w1, Raise e) =>
          if stop_after_attempt max_attempt_number attempt_number
          then Some (w1, Raise (RetryError e))
          else retrying max_attempt_number wait fuel' (S attempt_number) fn
                 (slept attempt_number e wait w1)
      end
  end.

(** [SpatialPointReasoner.invoke_async] as callers see it, lines 61-139:
    the body under [stop_after_attempt(3)] and [wait_fixed(3)], started at
    attempt number 1, with fuel for the three rounds the loop can make. *)
Definition invoke_async (challenge_screenshot grid_divisions : Path)
  (auxiliary_information : PyVal) (constraint_response_schema : option bool)
  (kwargs : gmap string PyVal) (w : World)
  : option (World * Outcome Models.ImageAreaSelectChallenge) :=
  retrying 3 3 3 1
    (invoke_async_body challenge_screenshot grid_divisions
       auxiliary_information constraint_response_schema kwargs) w.

(** *** Vocabulary for the statements below *)

(** How the two uploads in flight can end: the completions the trace gains
    and what [gather] hands back. *)
Inductive UploadsDone (a b : Path)
  : list Event -> Outcome (File * File) -> Prop :=
| done_a_b fa fb :
    UploadsDone a b
      [EvUploadDone a (Return fa); EvUploadDone b (Return fb)]
      (Return (fa, fb))
| done_b_a fa fb :
    UploadsDone a b
      [EvUploadDone b (Return fb); EvUploadDone a (Return fa)]
      (Return (fa, fb))
| failed_a e :
    UploadsDone a b [EvUploadDone a (Raise e)] (Raise e)
| failed_b e :
    UploadsDone a b [EvUploadDone b (Raise e)] (Raise e)
| done_a_failed_b fa e :
    UploadsDone a b
      [EvUploadDone a (Return fa); EvUploadDone b (Raise e)] (Raise e)
| done_b_failed_a fb e :
    UploadsDone a b
      [EvUploadDone b (Return fb); EvUploadDone a (Raise e)] (Raise e).

(** The request config of either decoding mode. *)
Definition request_config (free : bool) (model : PyVal)
  (kwargs : gmap string PyVal) : GenerateContentConfig :=
  if free then make_config model kwargs
  else set_response_format "application/json" ImageAreaSelectChallenge_schema
         (make_config model kwargs).

(** The result either decoding mode builds from a reply. *)
Definition decode (free : bool) (r : GenerateContentResponse)
  : Outcome Models.ImageAreaSelectChallenge :=
  if free then from_text_block r
  else match parsed r with
       | Some p => ImageAreaSelectChallenge_new (PyDict (Models.model_dump p))
       | None => from_text_block r
       end.

(** The four ways one attempt can go. *)
Inductive Attempt (cs gd : Path) (aux : PyVal) (crs : option bool)
  (kwargs : gmap string PyVal) (w : World)
  : World -> Outcome Models.ImageAreaSelectChallenge -> Prop :=
| attempt_no_model :
    is_None (model_to_use (self w) kwargs) = true ->
    Attempt cs gd aux crs kwargs w w (Raise (ValueError NO_MODEL_MESSAGE))
| attempt_upload_failed d e :
    is_None (model_to_use (self w) kwargs) = false ->
    UploadsDone cs gd d (Raise e) ->
    Attempt cs gd aux crs kwargs w
      (with_trace (trace w ++ EvUploadStart cs :: EvUploadStart gd :: d) w)
      (Raise e)
| attempt_call_failed d files e :
    let model := model_to_use (self w) kwargs in
    let free :=
      free_text_mode
        (effective_constraint_response_schema (self w) crs
           (delete "model" kwargs)) model in
    let contents := make_contents files aux in
    let config := request_config free model (delete "model" kwargs) in
    let t := trace w ++ EvUploadStart cs :: EvUploadStart gd :: d in
    is_None model = false ->
    UploadsDone cs gd d (Return files) ->
    models_generate_content (genai_Client (_api_key (self w))) t model
      contents config = Raise e ->
    Attempt cs gd aux crs kwargs w
      (with_trace (t ++ [EvGenerate model contents config (Raise e)]) w)
      (Raise e)
| attempt_decoded d files r :
    let model := model_to_use (self w) kwargs in
    let free :=
      free_text_mode
        (effective_constraint_response_schema (self w) crs
           (delete "model" kwargs)) model in
    let contents := make_contents files aux in
    let config := request_config free model (delete "model" kwargs) in
    let t := trace w ++ EvUploadStart cs :: EvUploadStart gd :: d in
    is_None model = false ->
    UploadsDone cs gd d (Return files) ->
    models_generate_content (genai_Client (_api_key (self w))) t model
      contents config = Return r ->
    Attempt cs gd aux crs kwargs w
      {| trace := t ++ [EvGenerate model contents config (Return r)];
         self := with_response r (self w) |}
      (decode free r).

(** *** Vocabulary for the further properties *)

(** [hcaptcha_challenger.models.DEFAULT_SCOT_MODEL] *)
Variable DEFAULT_SCOT_MODEL : string.

(** Modelled from the spec: lines 53-59 hand [gemini_api_key], [model]
    (default [DEFAULT_SCOT_MODEL]) and [constraint_response_schema] (default
    [False]) to the base constructor, which is not part of the sources at
    hand and, per the spec, stores them.  An omitted argument is [None]
    here. *)
Definition init (gemini_api_key : string) (model : option (option string))
  (constraint_response_schema : option bool) : Reasoner :=
  {| _api_key := gemini_api_key;
     _model := default (Some DEFAULT_SCOT_MODEL) model;
     _constraint_response_schema := default false constraint_response_schema;
     _response := None |}.

Definition is_upload_start (ev : Event) : bool :=
  match ev with EvUploadStart _ => true | _ => false end.

(** What the retry loop itself adds to a trace. *)
Definition retry_log (d : list Event) : list Event :=
  List.filter (fun ev => negb (is_network ev)) d.

(** Two worlds that differ at most in [self._response]. *)
Definition same_but_response (w v : World) : Prop :=
  trace w = trace v /\
  _api_key (self w) = _api_key (self v) /\
  _model (self w) = _model (self v) /\
  _constraint_response_schema (self w) = _constraint_response_schema (self v).

(** A computation that cannot tell such worlds apart. *)
Definition Blind {A} (m : M A) : Prop :=
  forall w v,
    same_but_response w v ->
    same_but_response (m w).1 (m v).1 /\ (m w).2 = (m v).2.


(* ===================================================================== *)
(** ** Running the monad *)
(* ===================================================================== *)

Lemma bind_inv {A B} (m : M A) (f : A -> M B) w w' r :
  (m ≫= f) w = (w', r) ->
  (exists w1 a, m w = (w1, Return a) /\ f a w1 = (w', r)) \/
  (exists e, m w = (w', Raise e) /\ r = Raise e).
Proof.
  unfold mbind, M_bind.
  destruct (m w) as [w1 [a | e]]; intros H.
  - left. eauto.
  - right. inversion H; subst. eauto.
Qed.

Lemma bind_get_self {B} (f : Reasoner -> M B) w :
  (get_self ≫= f) w = f (self w) w.
Proof. reflexivity. Qed.

Lemma new_events_app w w' d :
  trace w' = trace w ++ d -> new_events w w' = d.
Proof. unfold new_events. intros ->. by rewrite drop_app_length. Qed.

Lemma gather_uploads_inv client a b w w' r :
  gather_uploads client a b w = (w', r) ->
  exists d, w' = with_trace (trace w ++ EvUploadStart a :: EvUploadStart b :: d) w
            /\ UploadsDone a b d r.
Proof.
  unfold gather_uploads.
  cbv [mbind M_bind mret M_ret emit get_trace upload_done await with_trace].
  cbn [trace self fst snd].
  rewrite <- !app_assoc. cbn [app].
  set (t := trace w ++ [EvUploadStart a; EvUploadStart b]).
  destruct (first_completes_first t);
    repeat match goal with
    | |- context [files_upload ?c ?h ?f] =>
        destruct (files_upload c h f) eqn:?
    end;
    intros H; inversion H; subst; clear H; subst t;
    rewrite <- !app_assoc; cbn [app];
    (eexists; split; [reflexivity | constructor]).
Qed.

Lemma call_and_decode (k : GenerateContentResponse ->
                            Outcome Models.ImageAreaSelectChallenge)
  (K : GenerateContentResponse -> M Models.ImageAreaSelectChallenge)
  client model contents config w w' r :
  (forall resp w0, K resp w0 = (w0, k resp)) ->
  (resp ← generate_content client model contents config;
   set_response resp;;
   K resp) w = (w', r) ->
  match models_generate_content client (trace w) model contents config with
  | Return resp =>
      w' = {| trace := trace w ++ [EvGenerate model contents config (Return resp)];
              self := with_response resp (self w) |}
      /\ r = k resp
  | Raise e =>
      w' = with_trace (trace w ++ [EvGenerate model contents config (Raise e)]) w
      /\ r = Raise e
  end.
Proof.
  intros HK.
  cbv [mbind M_bind generate_content await set_response].
  destruct (models_generate_content client (trace w) model contents config);
    cbn [trace self with_trace]; rewrite ?HK; intros H; inversion H; auto.
Qed.

Lemma body_attempt cs gd aux crs kwargs w w' r :
  invoke_async_body cs gd aux crs kwargs w = (w', r) ->
  Attempt cs gd aux crs kwargs w w' r.
Proof.
  unfold invoke_async_body. rewrite bind_get_self. cbv zeta.
  destruct (is_None (model_to_use (self w) kwargs)) eqn:Hm.
  { unfold raise. intros H; inversion H; subst. by constructor. }
  intros H. apply bind_inv in H as [(w1 & files & Hg & H) | (e & Hg & ->)];
    apply gather_uploads_inv in Hg as (d & -> & Hd).
  2: by apply attempt_upload_failed.
  pose proof (attempt_decoded cs gd aux crs kwargs w d files) as Hok.
  pose proof (attempt_call_failed cs gd aux crs kwargs w d files) as Hko.
  cbv zeta in Hok, Hko.
  destruct (free_text_mode _ _) eqn:Hfree.
  - apply (call_and_decode (decode true)) in H; [| reflexivity].
    cbn [trace self with_trace request_config] in *.
    destruct (models_generate_content _ _ _ _ _) eqn:Hcall;
      destruct H as [-> ->]; [by apply Hok | by apply Hko].
  - apply (call_and_decode (decode false)) in H;
      [| by intros resp w0; unfold decode; destruct (parsed resp)].
    cbn [trace self with_trace request_config] in *.
    destruct (models_generate_content _ _ _ _ _) eqn:Hcall;
      destruct H as [-> ->]; [by apply Hok | by apply Hko].
Qed.

Lemma uploads_done_no_generate a b d r ev :
  UploadsDone a b d r -> ev ∈ d -> is_generate ev = false.
Proof.
  intros Hd Hev. destruct Hd; set_solver.
Qed.

Lemma uploads_done_returned a b d fa fb :
  UploadsDone a b d (Return (fa, fb)) ->
  EvUploadDone a (Return fa) ∈ d /\ EvUploadDone b (Return fb) ∈ d /\
  forall p e, EvUploadDone p (Raise e) ∉ d.
Proof.
  intros Hd. inversion Hd; subst; set_solver.
Qed.

Lemma uploads_done_raised a b d e p e' :
  UploadsDone a b d (Raise e) -> EvUploadDone p (Raise e') ∈ d -> e' = e.
Proof.
  intros Hd. inversion Hd; subst; set_solver.
Qed.

Lemma new_events_with_trace w d s :
  new_events w {| trace := trace w ++ d; self := s |} = d.
Proof. by apply new_events_app. Qed.

(** The shape of an attempt that reached the inference call. *)
Lemma attempt_generate cs gd aux crs kwargs w w' r m c cfg rep :
  Attempt cs gd aux crs kwargs w w' r ->
  EvGenerate m c cfg rep ∈ new_events w w' ->
  exists d files,
    UploadsDone cs gd d (Return files) /\
    new_events w w' =
      EvUploadStart cs :: EvUploadStart gd :: d ++ [EvGenerate m c cfg rep] /\
    m = model_to_use (self w) kwargs /\
    is_None m = false /\
    c = make_contents files aux /\
    let free :=
      free_text_mode
        (effective_constraint_response_schema (self w) crs
           (delete "model" kwargs)) m in
    cfg = request_config free m (delete "model" kwargs) /\
    match rep with
    | Return resp => r = decode free resp /\ self w' = with_response resp (self w)
    | Raise e => r = Raise e /\ self w' = self w
    end.
Proof.
  intros Hrun. inversion Hrun; subst; clear Hrun.
  - unfold new_events. rewrite drop_all. set_solver.
  - unfold with_trace. rewrite new_events_with_trace.
    intros Hin.
    assert (is_generate (EvGenerate m c cfg rep) = false) as Hg; [| done].
    apply elem_of_cons in Hin as [? | Hin]; [done |].
    apply elem_of_cons in Hin as [? | Hin]; [done |].
    eauto using uploads_done_no_generate.
  - subst t. unfold with_trace.
    rewrite <- app_assoc; cbn [app]. rewrite new_events_with_trace.
    intros Hin.
    apply elem_of_cons in Hin as [? | Hin]; [done |].
    apply elem_of_cons in Hin as [? | Hin]; [done |].
    apply elem_of_app in Hin as [Hin | Hin].
    { by apply (uploads_done_no_generate _ _ _ _ _ H0) in Hin. }
    apply list_elem_of_singleton in Hin. inversion Hin; subst.
    exists d, files. repeat split; auto.
  - subst t.
    rewrite <- app_assoc; cbn [app]. rewrite new_events_with_trace.
    intros Hin.
    apply elem_of_cons in Hin as [? | Hin]; [done |].
    apply elem_of_cons in Hin as [? | Hin]; [done |].
    apply elem_of_app in Hin as [Hin | Hin].
    { by apply (uploads_done_no_generate _ _ _ _ _ H0) in Hin. }
    apply list_elem_of_singleton in Hin. inversion Hin; subst.
    exists d, files. repeat split; auto.
Qed.

(* ===================================================================== *)
(** ** One attempt: the request and its order *)
(* ===================================================================== *)

Lemma make_parts_cases files aux :
  (exists s, aux = PyStr s /\ s <> "" /\
     make_parts files aux =
       [from_uri (uri files.1) (mime_type files.1);
        from_uri (uri files.2) (mime_type files.2);
        from_text s]) \/
  ((aux = PyStr "" \/ isinstance_str aux = false) /\
     make_parts files aux =
       [from_uri (uri files.1) (mime_type files.1);
        from_uri (uri files.2) (mime_type files.2)]).
Proof.
  unfold make_parts.
  destruct aux as [| b | n | m e | s | l | d];
    cbn [truthy isinstance_str andb];
    rewrite ?andb_false_r; try (right; split; [by right | done]).
  destruct (decide (s = "")) as [-> | Hs].
  - right. split; [by left | done].
  - left. exists s. rewrite bool_decide_eq_false_2 by done. done.
Qed.

Lemma make_config_system_instruction model kwargs :
  system_instruction (make_config model kwargs) = Some THINKING_PROMPT.
Proof. unfold make_config. by destruct (_ && _). Qed.

Lemma request_config_system_instruction free model kwargs :
  system_instruction (request_config free model kwargs) = Some THINKING_PROMPT.
Proof.
  unfold request_config.
  destruct free; cbn; apply make_config_system_instruction.
Qed.


(** C10: the text part exists exactly for a non-empty string.  When
    auxiliary_information is None, the empty string or not a string at all,
    the user turn of the inference call is the two image parts and nothing
    more; a text part in it means auxiliary_information is that non-empty
    string. *)
Theorem C10_text_part_only_for_nonempty_string cs gd aux crs kwargs w w' r
  model contents config reply :
  invoke_async_body cs gd aux crs kwargs w = (w', r) ->
  EvGenerate model contents config reply ∈ new_events w w' ->
  exists f0 f1 texts,
    contents =
      [ {| role := "user";
           parts := [from_uri (uri f0) (mime_type f0);
                     from_uri (uri f1) (mime_type f1)] ++ texts |} ] /\
    (aux = PyNone \/ aux = PyStr "" \/ isinstance_str aux = false ->
     texts = []) /\
    (forall s, aux = PyStr s -> s <> "" -> texts = [from_text s]) /\
    (forall p, p ∈ texts -> exists s, p = from_text s /\ aux = PyStr s /\ s <> "").
Proof.
  intros Hrun Hin. apply body_attempt in Hrun.
  destruct (attempt_generate _ _ _ _ _ _ _ _ _ _ _ _ Hrun Hin)
    as (d & [f0 f1] & _ & _ & _ & _ & -> & _).
  destruct (make_parts_cases (f0, f1) aux)
    as [(s & -> & Hs & Hparts) | (Haux & Hparts)];
    cbn [fst snd] in Hparts; unfold make_contents; rewrite Hparts.
  - exists f0, f1, [from_text s]. repeat split.
    + intros [? | [? | ?]]; [done | congruence | done].
    + intros s' [= <-] _. done.
    + intros p Hp. apply list_elem_of_singleton in Hp. eauto.
  - exists f0, f1, []. repeat split.
    + intros s -> Hs. destruct Haux as [? | ?]; [congruence | done].
    + intros p Hp. by apply elem_of_nil in Hp.
Qed.

Lemma make_config_response_format model kwargs :
  response_mime_type (make_config model kwargs) = None /\
  response_schema (make_config model kwargs) = None.
Proof. unfold make_config. by destruct (_ && _). Qed.

Lemma free_text_mode_legacy flag :
  free_text_mode flag (PyStr "gemini-2.0-flash-thinking-exp-01-21") = true.
Proof. unfold free_text_mode. by rewrite orb_true_r. Qed.

(** C5: when the resolved model is the legacy experimental identifier, every
    inference call of the attempt goes out without a JSON mime type and
    without a response schema, whatever the schema flags say, and a reply
    that comes back is turned into the result by running
    extract_first_json_block on the reply's text and handing the extracted
    block to the result class (the pre-parsed object is not consulted). *)
Theorem C5_legacy_model_uses_free_text cs gd aux crs kwargs w w' r
  model contents config reply :
  invoke_async_body cs gd aux crs kwargs w = (w', r) ->
  model_to_use (self w) kwargs = PyStr "gemini-2.0-flash-thinking-exp-01-21" ->
  EvGenerate model contents config reply ∈ new_events w w' ->
  model = PyStr "gemini-2.0-flash-thinking-exp-01-21" /\
  response_mime_type config = None /\
  response_schema config = None /\
  (forall resp,
     reply = Return resp ->
     r = match extract_first_json_block (text resp) with
         | Return block => ImageAreaSelectChallenge_new block
         | Raise e => Raise e
         end).
Proof.
  intros Hrun Hmodel Hin. apply body_attempt in Hrun.
  destruct (attempt_generate _ _ _ _ _ _ _ _ _ _ _ _ Hrun Hin)
    as (d & files & _ & _ & -> & _ & _ & Hcfg & Hrep).
  cbv zeta in Hcfg, Hrep. rewrite Hmodel in *.
  rewrite free_text_mode_legacy in Hcfg, Hrep.
  cbn [request_config decode] in Hcfg, Hrep. subst config.
  destruct (make_config_response_format
              (PyStr "gemini-2.0-flash-thinking-exp-01-21")
              (delete "model" kwargs)) as [-> ->].
  repeat split.
  intros resp ->. destruct Hrep as [-> _]. reflexivity.
Qed.

Lemma request_config_thinking free model kwargs :
  thinking_config (request_config free model kwargs) =
  thinking_config (make_config model kwargs).
Proof. by destruct free. Qed.

Lemma py_in_spec v l :
  py_in v l = true <-> exists m, v = PyStr m /\ m ∈ l.
Proof.
  destruct v; cbn; try (split; [done | by intros (? & ? & ?)]).
  rewrite bool_decide_eq_true. split; [eauto |].
  by intros (m & [= ->] & ?).
Qed.

Lemma make_config_thinking model kwargs tc :
  thinking_config (make_config model kwargs) = Some tc <->
  exists m budget,
    model = PyStr m /\ m ∈ THINKING_BUDGET_MODELS /\
    kwargs !! "thinking_budget" = Some budget /\
    isinstance_int budget = true /\
    tc = {| include_thoughts := true; thinking_budget := budget |}.
Proof.
  unfold make_config, kwargs_get.
  destruct (py_in model THINKING_BUDGET_MODELS) eqn:Hin; cbn [andb].
  - apply py_in_spec in Hin as (m & -> & Hm).
    destruct (kwargs !! "thinking_budget") as [budget |] eqn:Hb;
      cbn [from_option id].
    + destruct (isinstance_int budget) eqn:Hi; cbn.
      * split.
        -- intros [= <-]. exists m, budget. done.
        -- intros (m' & b' & _ & _ & [= <-] & _ & ->). done.
      * split; [done |].
        intros (m' & b' & _ & _ & [= <-] & Hi' & _). congruence.
    + cbn. split; [done |]. by intros (m' & b' & _ & _ & ? & _).
  - split; [done |].
    intros (m & b & -> & Hm & _).
    assert (py_in (PyStr m) THINKING_BUDGET_MODELS = true)
      by (apply py_in_spec; eauto).
    congruence.
Qed.

(** C7: the request of an attempt carries a thinking configuration exactly
    when the resolved model is one of THINKING_BUDGET_MODELS and the call
    supplied a thinking_budget that is an int; the configuration then enables
    the reasoning trace and carries that budget.  In every other case the
    request has no thinking configuration. *)
Theorem C7_thinking_config_iff cs gd aux crs kwargs w w' r
  model contents config reply :
  invoke_async_body cs gd aux crs kwargs w = (w', r) ->
  EvGenerate model contents config reply ∈ new_events w w' ->
  model = model_to_use (self w) kwargs /\
  (forall tc,
     thinking_config config = Some tc <->
     exists m budget,
       model = PyStr m /\ m ∈ THINKING_BUDGET_MODELS /\
       kwargs !! "thinking_budget" = Some budget /\
       isinstance_int budget = true /\
       tc = {| include_thoughts := true; thinking_budget := budget |}) /\
  (thinking_config config = None <->
   ~ exists m budget,
       model = PyStr m /\ m ∈ THINKING_BUDGET_MODELS /\
       kwargs !! "thinking_budget" = Some budget /\
       isinstance_int budget = true).
Proof.
  intros Hrun Hin. apply body_attempt in Hrun.
  destruct (attempt_generate _ _ _ _ _ _ _ _ _ _ _ _ Hrun Hin)
    as (d & files & _ & _ & Hm & _ & _ & Hcfg & _).
  cbv zeta in Hcfg. subst config. rewrite request_config_thinking.
  assert (forall tc,
     thinking_config (make_config model (delete "model" kwargs)) = Some tc <->
     exists m budget,
       model = PyStr m /\ m ∈ THINKING_BUDGET_MODELS /\
       kwargs !! "thinking_budget" = Some budget /\
       isinstance_int budget = true /\
       tc = {| include_thoughts := true; thinking_budget := budget |}) as Hiff.
  { intros tc. rewrite make_config_thinking.
    by rewrite lookup_delete_ne. }
  split; [done |]. split; [done |].
  destruct (thinking_config (make_config model (delete "model" kwargs)))
    as [tc |] eqn:Htc.
  - split; [done |]. intros Hno. exfalso. apply Hno.
    destruct (proj1 (Hiff tc) eq_refl) as (m & b & ? & ? & ? & ? & _).
    exists m, b. done.
  - split; [| done]. intros _ (m & b & ? & ? & ? & ?).
    assert (None = Some {| include_thoughts := true; thinking_budget := b |})
      as Habs; [| done].
    apply Hiff. exists m, b. done.
Qed.

Lemma split_at_cons {A} (pre : list A) x post a l :
  pre ++ x :: post = a :: l ->
  (pre = [] /\ x = a /\ post = l) \/
  (exists pre', pre = a :: pre' /\ pre' ++ x :: post = l).
Proof.
  destruct pre as [| b pre]; cbn; intros H; inversion H; subst; eauto.
Qed.

Lemma split_at_nil {A} (pre : list A) x post : pre ++ x :: post <> [].
Proof. by destruct pre. Qed.

Ltac split_prefix H :=
  repeat
    (let Hx := fresh "Hx" in
     let pre' := fresh "pre" in
     apply split_at_cons in H as [(-> & Hx & ->) | (pre' & -> & H)];
     [ try discriminate Hx; try (injection Hx as; subst) | ]);
  try (by apply split_at_nil in H).

Lemma attempt_new_events cs gd aux crs kwargs w w' r :
  Attempt cs gd aux crs kwargs w w' r ->
  new_events w w' = [] \/
  (exists d e,
     UploadsDone cs gd d (Raise e) /\ r = Raise e /\
     new_events w w' = EvUploadStart cs :: EvUploadStart gd :: d) \/
  (exists d files m c cfg rep,
     UploadsDone cs gd d (Return files) /\
     (forall e, rep = Raise e -> r = Raise e) /\
     new_events w w' =
       EvUploadStart cs :: EvUploadStart gd :: d ++ [EvGenerate m c cfg rep]).
Proof.
  intros Hrun.
  inversion Hrun as
    [Hm | d e Hm Hd | d files e model free contents config t Hm Hd Hcall
     | d files resp model free contents config t Hm Hd Hcall];
    subst; clear Hrun.
  - left. unfold new_events. by rewrite drop_all.
  - right; left. exists d, e. unfold with_trace.
    by rewrite new_events_with_trace.
  - right; right. subst t. unfold with_trace.
    rewrite <- app_assoc; cbn [app]. rewrite new_events_with_trace.
    eexists d, files, _, _, _, _. split; [done |]. split; [| done].
    by intros e' [= ->].
  - right; right. subst t.
    rewrite <- app_assoc; cbn [app]. rewrite new_events_with_trace.
    eexists d, files, _, _, _, _. split; [done |]. split; [| done].
    by intros e'.
Qed.

(** C6: within one attempt both upload requests are under way before either
    completion is seen (the two uploads overlap), an inference call is only
    issued after both uploads have returned a file, and an upload that fails
    ends the attempt with that failure and without any inference call. *)
Theorem C6_uploads_before_inference cs gd aux crs kwargs w w' r :
  invoke_async_body cs gd aux crs kwargs w = (w', r) ->
  (forall pre p o post,
     new_events w w' = pre ++ EvUploadDone p o :: post ->
     EvUploadStart cs ∈ pre /\ EvUploadStart gd ∈ pre) /\
  (forall pre m c cfg rep post,
     new_events w w' = pre ++ EvGenerate m c cfg rep :: post ->
     (exists f0 f1,
        EvUploadDone cs (Return f0) ∈ pre /\
        EvUploadDone gd (Return f1) ∈ pre) /\
     (forall p e, EvUploadDone p (Raise e) ∉ pre)) /\
  (forall p e,
     EvUploadDone p (Raise e) ∈ new_events w w' ->
     r = Raise e /\
     forall ev, ev ∈ new_events w w' -> is_generate ev = false).
Proof.
  intros Hrun. apply body_attempt, attempt_new_events in Hrun.
  destruct Hrun as
    [-> | [(d & e & Hd & -> & ->)
          | (d & files & m & c & cfg & rep & Hd & Hr & ->)]].
  - split; [| split].
    + intros pre p o post Hsplit. by destruct pre.
    + intros pre m c cfg rep post Hsplit. by destruct pre.
    + intros p e Hin. by apply elem_of_nil in Hin.
  - split; [| split].
    + intros pre p o post Hsplit.
      symmetry in Hsplit.
      inversion Hd; subst; split_prefix Hsplit; set_solver.
    + intros pre m c cfg rep post Hsplit. symmetry in Hsplit.
      inversion Hd; subst; split_prefix Hsplit.
    + intros p e' Hin. split.
      * f_equal. symmetry. apply (uploads_done_raised _ _ _ _ p e' Hd).
        set_solver.
      * intros ev Hev.
        apply elem_of_cons in Hev as [-> | Hev]; [done |].
        apply elem_of_cons in Hev as [-> | Hev]; [done |].
        eauto using uploads_done_no_generate.
  - destruct files as [f0 f1].
    split; [| split].
    + intros pre p o post Hsplit. symmetry in Hsplit.
      inversion Hd; subst; cbn [app] in Hsplit; split_prefix Hsplit;
        set_solver.
    + intros pre m' c' cfg' rep' post Hsplit. symmetry in Hsplit.
      inversion Hd; subst; cbn [app] in Hsplit; split_prefix Hsplit.
      all: (split; [exists f0, f1; set_solver | set_solver]).
    + intros p e' Hin. exfalso.
      apply uploads_done_returned in Hd as (_ & _ & Hno).
      apply elem_of_cons in Hin as [? | Hin]; [done |].
      apply elem_of_cons in Hin as [? | Hin]; [done |].
      apply elem_of_app in Hin as [Hin | Hin]; [by apply Hno in Hin |].
      by apply list_elem_of_singleton in Hin.
Qed.

(* ===================================================================== *)
(** ** The retry envelope *)
(* ===================================================================== *)

Lemma slept_run n e wait w :
  slept n e wait w = with_trace (trace w ++ [EvWarning n e; EvSleep wait]) w.
Proof.
  unfold slept, before_sleep_then_sleep, with_trace.
  cbv [mbind M_bind emit with_trace]. cbn [fst trace self].
  by rewrite <- app_assoc.
Qed.

(** The loop of [invoke_async], unrolled. *)
Lemma invoke_async_unroll cs gd aux crs kwargs w :
  invoke_async cs gd aux crs kwargs w =
  let fn := invoke_async_body cs gd aux crs kwargs in
  match fn w with
  | (w1, Return a) => Some (w1, Return a)
  | (w1, Raise e1) =>
      match fn (slept 1 e1 3 w1) with
      | (w2, Return a) => Some (w2, Return a)
      | (w2, Raise e2) =>
          match fn (slept 2 e2 3 w2) with
          | (w3, Return a) => Some (w3, Return a)
          | (w3, Raise e3) => Some (w3, Raise (RetryError e3))
          end
      end
  end.
Proof.
  unfold invoke_async. cbn [retrying]. cbv zeta.
  destruct (invoke_async_body _ _ _ _ _ w) as [w1 [a | e1]]; [done |].
  cbn [stop_after_attempt Nat.leb].
  destruct (invoke_async_body _ _ _ _ _ (slept 1 e1 3 w1))
    as [w2 [a | e2]]; [done |].
  destruct (invoke_async_body _ _ _ _ _ (slept 2 e2 3 w2))
    as [w3 [a | e3]]; done.
Qed.

(** The stop test ends the loop, not the fuel: any fuel beyond the attempts
    still allowed gives a result. *)
Lemma retrying_terminates {A} max wait (fn : M A) fuel n w :
  (max - n < fuel)%nat ->
  is_Some (retrying max wait fuel n fn w).
Proof.
  revert n w. induction fuel as [| fuel IH]; intros n w Hlt; [lia |].
  cbn [retrying]. destruct (fn w) as [w1 [a | e]]; [by eexists |].
  unfold stop_after_attempt.
  destruct (Nat.leb_spec max n) as [Hle | Hgt]; [by eexists |].
  apply IH. lia.
Qed.

Lemma retrying_more_fuel {A} max wait (fn : M A) fuel n w x :
  retrying max wait fuel n fn w = Some x ->
  retrying max wait (S fuel) n fn w = Some x.
Proof.
  revert n w. induction fuel as [| fuel IH]; intros n w; [done |].
  intros H. cbn [retrying] in H.
  change (retrying max wait (S (S fuel)) n fn w) with
    (match fn w with
     | (w1, Return a) => Some (w1, Return a)
     | (w1, Raise e) =>
         if stop_after_attempt max n then Some (w1, Raise (RetryError e))
         else retrying max wait (S fuel) (S n) fn (slept n e wait w1)
     end).
  destruct (fn w) as [w1 [a | e]]; [done |].
  destruct (stop_after_attempt max n); [done |].
  by apply IH.
Qed.

Lemma invoke_async_total cs gd aux crs kwargs w :
  is_Some (invoke_async cs gd aux crs kwargs w).
Proof. apply retrying_terminates. lia. Qed.

(** More fuel changes nothing: three attempts are all the loop ever makes. *)
Lemma invoke_async_fuel cs gd aux crs kwargs w fuel :
  (3 <= fuel)%nat ->
  retrying 3 3 fuel 1 (invoke_async_body cs gd aux crs kwargs) w =
  invoke_async cs gd aux crs kwargs w.
Proof.
  intros Hfuel.
  destruct (invoke_async_total cs gd aux crs kwargs w) as [x Hx].
  rewrite Hx. unfold invoke_async in Hx.
  replace fuel with (fuel - 3 + 3)%nat by lia.
  induction (fuel - 3)%nat as [| k IH]; [done |].
  by apply retrying_more_fuel.
Qed.

(** A relation that every attempt and every pause respect is respected by
    the whole loop. *)
Lemma retrying_rel {A} (R : World -> World -> Prop) max wait (fn : M A) :
  (forall w w1 r, fn w = (w1, r) -> R w w1) ->
  (forall n e w, R w (slept n e wait w)) ->
  (forall w1 w2 w3, R w1 w2 -> R w2 w3 -> R w1 w3) ->
  forall fuel n w w' r,
    retrying max wait fuel n fn w = Some (w', r) -> R w w'.
Proof.
  intros Hfn Hsleep Htrans.
  induction fuel as [| fuel IH]; intros n w w' r H; [done |].
  cbn [retrying] in H.
  destruct (fn w) as [w1 [a | e]] eqn:Hrun.
  - inversion H; subst. eauto.
  - destruct (stop_after_attempt max n).
    + inversion H; subst. eauto.
    + apply IH in H. eauto.
Qed.

(** The loop ends where its last attempt ends, and hands back that attempt's
    result, wrapped when it is a failure. *)
Lemma retrying_last {A} (R : World -> World -> Prop) max wait (fn : M A) :
  (forall w, R w w) ->
  (forall w w1 r, fn w = (w1, r) -> R w w1) ->
  (forall n e w, R w (slept n e wait w)) ->
  (forall w1 w2 w3, R w1 w2 -> R w2 w3 -> R w1 w3) ->
  forall fuel n w w' r,
    retrying max wait fuel n fn w = Some (w', r) ->
    exists w0 r0,
      R w w0 /\ fn w0 = (w', r0) /\
      match r with
      | Return a => r0 = Return a
      | Raise e => exists e0, r0 = Raise e0 /\ e = RetryError e0
      end.
Proof.
  intros Hrefl Hfn Hsleep Htrans.
  induction fuel as [| fuel IH]; intros n w w' r H; [done |].
  cbn [retrying] in H.
  destruct (fn w) as [w1 [a | e]] eqn:Hrun.
  - inversion H; subst. exists w, (Return a). eauto.
  - destruct (stop_after_attempt max n).
    + inversion H; subst. exists w, (Raise e). eauto.
    + apply IH in H as (w0 & r0 & HR & H0 & Hr).
      exists w0, r0. split; [| done]. eauto.
Qed.

(* ===================================================================== *)
(** ** Model resolution and the retry policy *)
(* ===================================================================== *)

Lemma model_to_use_none s kwargs :
  kwargs !! "model" = None -> _model s = None ->
  model_to_use s kwargs = PyNone.
Proof.
  intros Hk Hs. unfold model_to_use, stored_model. by rewrite Hk, Hs.
Qed.

Lemma body_no_model cs gd aux crs kwargs w :
  model_to_use (self w) kwargs = PyNone ->
  invoke_async_body cs gd aux crs kwargs w =
  (w, Raise (ValueError NO_MODEL_MESSAGE)).
Proof.
  intros Hm. unfold invoke_async_body. rewrite bind_get_self. cbv zeta.
  by rewrite Hm.
Qed.

(** C1, as the code has it: with no model in the call's kwargs and none
    stored on the solver, each attempt raises ValueError before anything is
    sent (no upload, no inference call in the whole invocation), but the
    failure goes through the retry envelope like any other: attempts one and
    two are each followed by a logged warning and a 3-second sleep, and after
    the third attempt the caller gets RetryError around the ValueError. *)
Theorem C1_no_model_fails_after_retries cs gd aux crs kwargs w :
  kwargs !! "model" = None ->
  _model (self w) = None ->
  let e := ValueError NO_MODEL_MESSAGE in
  invoke_async_body cs gd aux crs kwargs w = (w, Raise e) /\
  invoke_async cs gd aux crs kwargs w =
    Some (with_trace
            (trace w ++ [EvWarning 1 e; EvSleep 3; EvWarning 2 e; EvSleep 3])
            w,
          Raise (RetryError e)) /\
  forall w' r,
    invoke_async cs gd aux crs kwargs w = Some (w', r) ->
    forall ev, ev ∈ new_events w w' -> is_network ev = false.
Proof.
  intros Hk Hs e.
  assert (forall w0, self w0 = self w ->
            invoke_async_body cs gd aux crs kwargs w0 = (w0, Raise e))
    as Hbody.
  { intros w0 Hself. apply body_no_model. rewrite Hself.
    by apply model_to_use_none. }
  assert (invoke_async cs gd aux crs kwargs w =
    Some (with_trace
            (trace w ++ [EvWarning 1 e; EvSleep 3; EvWarning 2 e; EvSleep 3])
            w,
          Raise (RetryError e))) as Hrun.
  { rewrite invoke_async_unroll. cbv zeta.
    rewrite (Hbody w eq_refl).
    rewrite (Hbody (slept 1 e 3 w)) by (by rewrite slept_run).
    rewrite (Hbody (slept 2 e 3 (slept 1 e 3 w)))
      by (by rewrite !slept_run).
    rewrite !slept_run. unfold with_trace. cbn [trace self].
    by rewrite <- app_assoc. }
  split; [by apply Hbody |]. split; [exact Hrun |].
  intros w' r. rewrite Hrun. intros [= <- <-] ev.
  unfold with_trace. rewrite new_events_with_trace.
  intros Hev. set_solver.
Qed.

Lemma uploads_done_network a b d r ev :
  UploadsDone a b d r -> ev ∈ d -> is_network ev = true.
Proof. intros Hd Hev. destruct Hd; set_solver. Qed.

Lemma body_trace cs gd aux crs kwargs w w' r :
  invoke_async_body cs gd aux crs kwargs w = (w', r) ->
  trace w' = trace w ++ new_events w w' /\
  forall ev, ev ∈ new_events w w' -> is_network ev = true.
Proof.
  intros Hrun. apply body_attempt in Hrun.
  inversion Hrun as
    [Hm | d e Hm Hd | d files e model free contents config t Hm Hd Hcall
     | d files resp model free contents config t Hm Hd Hcall];
    subst; clear Hrun.
  - unfold new_events. rewrite drop_all, app_nil_r. split; [done |].
    intros ev Hev. by apply elem_of_nil in Hev.
  - unfold with_trace. rewrite new_events_with_trace. split; [done |].
    intros ev Hev.
    apply elem_of_cons in Hev as [-> | Hev]; [done |].
    apply elem_of_cons in Hev as [-> | Hev]; [done |].
    eauto using uploads_done_network.
  - subst t. unfold with_trace. rewrite <- app_assoc; cbn [app].
    rewrite new_events_with_trace. split; [done |].
    intros ev Hev.
    apply elem_of_cons in Hev as [-> | Hev]; [done |].
    apply elem_of_cons in Hev as [-> | Hev]; [done |].
    apply elem_of_app in Hev as [Hev | Hev];
      [eauto using uploads_done_network |].
    by apply list_elem_of_singleton in Hev as ->.
  - subst t. rewrite <- app_assoc; cbn [app].
    rewrite new_events_with_trace. split; [done |].
    intros ev Hev.
    apply elem_of_cons in Hev as [-> | Hev]; [done |].
    apply elem_of_cons in Hev as [-> | Hev]; [done |].
    apply elem_of_app in Hev as [Hev | Hev];
      [eauto using uploads_done_network |].
    by apply list_elem_of_singleton in Hev as ->.
Qed.

(** C2, as the code has it: whatever exceptions the attempts raise, a failed
    first attempt and a failed second attempt are each followed by a warning
    that carries the attempt's number and its exception and by a 3-second
    sleep, and then by a fresh attempt; when the third attempt fails too, no
    further attempt, warning or sleep follows, and the caller receives
    tenacity's RetryError holding the third attempt's exception. *)
Theorem C2_three_attempts_then_retry_error cs gd aux crs kwargs
  w w1 w2 w3 e1 e2 e3 :
  invoke_async_body cs gd aux crs kwargs w = (w1, Raise e1) ->
  invoke_async_body cs gd aux crs kwargs
    (with_trace (trace w1 ++ [EvWarning 1 e1; EvSleep 3]) w1)
    = (w2, Raise e2) ->
  invoke_async_body cs gd aux crs kwargs
    (with_trace (trace w2 ++ [EvWarning 2 e2; EvSleep 3]) w2)
    = (w3, Raise e3) ->
  invoke_async cs gd aux crs kwargs w = Some (w3, Raise (RetryError e3)) /\
  exists d1 d2 d3,
    trace w3 =
      trace w ++ d1 ++ [EvWarning 1 e1; EvSleep 3]
              ++ d2 ++ [EvWarning 2 e2; EvSleep 3] ++ d3 /\
    d1 = new_events w w1 /\
    d2 = new_events (with_trace (trace w1 ++ [EvWarning 1 e1; EvSleep 3]) w1)
           w2 /\
    d3 = new_events (with_trace (trace w2 ++ [EvWarning 2 e2; EvSleep 3]) w2)
           w3 /\
    forall ev, ev ∈ d1 ++ d2 ++ d3 ->
      is_warning ev = false /\ forall s, ev <> EvSleep s.
Proof.
  intros H1 H2 H3.
  split.
  { rewrite invoke_async_unroll. cbv zeta.
    by rewrite H1, slept_run, H2, slept_run, H3. }
  apply body_trace in H1 as [Ht1 Hn1].
  apply body_trace in H2 as [Ht2 Hn2].
  apply body_trace in H3 as [Ht3 Hn3].
  cbn [trace with_trace] in Ht2, Ht3.
  eexists _, _, _. split; [| repeat split; try reflexivity].
  - rewrite Ht3, Ht2, Ht1. by rewrite <- !app_assoc.
  - match goal with H : _ ∈ _ |- _ => revert H end.
    rewrite !elem_of_app. intros [Hev | [Hev | Hev]];
      [apply Hn1 in Hev | apply Hn2 in Hev | apply Hn3 in Hev];
      by destruct ev.
  - intros s ->.
    match goal with H : _ ∈ _ |- _ => revert H end.
    rewrite !elem_of_app. intros [Hev | [Hev | Hev]];
      [apply Hn1 in Hev | apply Hn2 in Hev | apply Hn3 in Hev]; done.
Qed.

(* ===================================================================== *)
(** ** The schema flag *)
(* ===================================================================== *)

Lemma effective_flag_delete_model s crs kwargs :
  effective_constraint_response_schema s crs (delete "model" kwargs) =
  effective_constraint_response_schema s crs kwargs.
Proof.
  unfold effective_constraint_response_schema, kwargs_get.
  by rewrite lookup_delete_ne.
Qed.

(** C4, as the code has it: the value passed as enable_response_schema in
    kwargs, when there is one other than None, is the effective flag whatever
    the other two say; without it the per-call constraint_response_schema
    argument decides when it is given, and the constructor's default only
    when neither is.  Every inference call of an attempt is configured from
    the flag resolved this way. *)
Theorem C4_flag_precedence s crs kwargs :
  (forall v,
     kwargs !! "enable_response_schema" = Some v -> v <> PyNone ->
     effective_constraint_response_schema s crs kwargs = v) /\
  (forall b,
     kwargs !! "enable_response_schema" = None \/
     kwargs !! "enable_response_schema" = Some PyNone ->
     crs = Some b ->
     effective_constraint_response_schema s crs kwargs = PyBool b) /\
  (kwargs !! "enable_response_schema" = None \/
   kwargs !! "enable_response_schema" = Some PyNone ->
   crs = None ->
   effective_constraint_response_schema s crs kwargs =
     PyBool (_constraint_response_schema s)) /\
  (forall cs gd aux w w' r m c cfg rep,
     self w = s ->
     invoke_async_body cs gd aux crs kwargs w = (w', r) ->
     EvGenerate m c cfg rep ∈ new_events w w' ->
     cfg = request_config
             (free_text_mode
                (effective_constraint_response_schema s crs kwargs) m)
             m (delete "model" kwargs)).
Proof.
  unfold effective_constraint_response_schema at 1 2 3. unfold kwargs_get.
  split; [| split; [| split]].
  - intros v -> Hv. cbn. by destruct v.
  - intros b [-> | ->] ->; done.
  - intros [-> | ->] ->; done.
  - intros cs gd aux w w' r m c cfg rep <- Hrun Hin.
    apply body_attempt in Hrun.
    destruct (attempt_generate _ _ _ _ _ _ _ _ _ _ _ _ Hrun Hin)
      as (d & files & _ & _ & _ & _ & _ & Hcfg & _).
    cbv zeta in Hcfg. by rewrite effective_flag_delete_model in Hcfg.
Qed.

(* ===================================================================== *)
(** ** What a call leaves on the solver *)
(* ===================================================================== *)

Lemma last_reply_app d1 d2 :
  last_reply (d1 ++ d2) =
  match last_reply d2 with
  | Some r => Some r
  | None => last_reply d1
  end.
Proof.
  induction d1 as [| ev d1 IH]; cbn [app last_reply].
  - by destruct (last_reply d2).
  - rewrite IH. by destruct (last_reply d2).
Qed.

Lemma uploads_done_last_reply a b d r :
  UploadsDone a b d r -> last_reply d = None.
Proof. by destruct 1. Qed.

Lemma leaves_refl w : leaves w w.
Proof.
  unfold leaves, new_events. rewrite drop_all, app_nil_r. done.
Qed.

Lemma leaves_trans w1 w2 w3 : leaves w1 w2 -> leaves w2 w3 -> leaves w1 w3.
Proof.
  intros (Ha1 & Hb1 & Hc1 & Ht1 & Hr1) (Ha2 & Hb2 & Hc2 & Ht2 & Hr2).
  assert (trace w3 = trace w1 ++ (new_events w1 w2 ++ new_events w2 w3))
    as Ht3 by (by rewrite app_assoc, <- Ht1).
  unfold leaves. rewrite (new_events_app _ _ _ Ht3).
  repeat split; try congruence.
  rewrite last_reply_app, Hr2, Hr1.
  by destruct (last_reply (new_events w2 w3)).
Qed.

Lemma leaves_slept n e wait w : leaves w (slept n e wait w).
Proof.
  rewrite slept_run. unfold leaves, with_trace.
  by rewrite new_events_with_trace.
Qed.

Lemma leaves_body cs gd aux crs kwargs w w' r :
  invoke_async_body cs gd aux crs kwargs w = (w', r) -> leaves w w'.
Proof.
  intros Hrun. apply body_attempt in Hrun.
  inversion Hrun as
    [Hm | d e Hm Hd | d files e model free contents config t Hm Hd Hcall
     | d files resp model free contents config t Hm Hd Hcall];
    subst; clear Hrun.
  - apply leaves_refl.
  - unfold leaves, with_trace. rewrite new_events_with_trace.
    cbn [trace self last_reply].
    by rewrite (uploads_done_last_reply _ _ _ _ Hd).
  - subst t. unfold leaves, with_trace. rewrite <- app_assoc; cbn [app].
    rewrite new_events_with_trace. cbn [trace self last_reply].
    rewrite last_reply_app. cbn [last_reply].
    by rewrite (uploads_done_last_reply _ _ _ _ Hd).
  - subst t. unfold leaves. rewrite <- app_assoc; cbn [app].
    rewrite new_events_with_trace. cbn [trace self last_reply].
    by rewrite last_reply_app.
Qed.

Lemma leaves_new_events w1 w2 w3 :
  leaves w1 w2 -> leaves w2 w3 ->
  new_events w1 w3 = new_events w1 w2 ++ new_events w2 w3.
Proof.
  intros (_ & _ & _ & Ht1 & _) (_ & _ & _ & Ht2 & _).
  apply new_events_app. by rewrite app_assoc, <- Ht1.
Qed.

Lemma retrying_events cs gd aux crs kwargs fuel n w w' r ev :
  retrying 3 3 fuel n (invoke_async_body cs gd aux crs kwargs) w
    = Some (w', r) ->
  ev ∈ new_events w w' ->
  (exists k e, ev = EvWarning k e) \/ ev = EvSleep 3 \/
  exists w0 w1 r0,
    leaves w w0 /\
    invoke_async_body cs gd aux crs kwargs w0 = (w1, r0) /\
    ev ∈ new_events w0 w1.
Proof.
  revert w n.
  induction fuel as [| fuel IH]; intros w n Hrun Hev; [done |].
  cbn [retrying] in Hrun.
  destruct (invoke_async_body cs gd aux crs kwargs w) as [w1 [a | e]]
    eqn:Hbody.
  - injection Hrun as <- <-. right; right.
    exists w, w1, (Return a). auto using leaves_refl.
  - destruct (stop_after_attempt 3 n).
    + injection Hrun as <- <-. right; right.
      exists w, w1, (Raise e). auto using leaves_refl.
    + pose proof (leaves_body _ _ _ _ _ _ _ _ Hbody) as H1.
      pose proof (leaves_slept n e 3 w1) as H2.
      pose proof (retrying_rel leaves 3 3 _
                    (leaves_body cs gd aux crs kwargs)
                    (fun n e w => leaves_slept n e 3 w) leaves_trans
                    _ _ _ _ _ Hrun) as H3.
      rewrite (leaves_new_events w (slept n e 3 w1) w') in Hev
        by eauto using leaves_trans.
      rewrite (leaves_new_events w w1 (slept n e 3 w1)) in Hev by done.
      apply elem_of_app in Hev as [Hev | Hev];
        [apply elem_of_app in Hev as [Hev | Hev] |].
      * right; right. exists w, w1, (Raise e). auto using leaves_refl.
      * rewrite slept_run in Hev. unfold with_trace in Hev.
        rewrite new_events_with_trace in Hev.
        apply elem_of_cons in Hev as [-> | Hev]; [left; eauto |].
        apply list_elem_of_singleton in Hev as ->. right; left; done.
      * destruct (IH _ _ Hrun Hev)
          as [? | [? | (w0 & w2 & r0 & Hl & Hb & Hin)]]; auto.
        right; right. exists w0, w2, r0.
        split; [| done]. eauto using leaves_trans.
Qed.

(** Every event of a call is a warning or a sleep of the retry loop, or was
    produced by one of its attempts; each attempt starts with the solver's
    three settings as the call found them.  So what holds of every attempt
    holds of every upload and every inference call a call makes. *)
Lemma invoke_async_events cs gd aux crs kwargs w w' r ev :
  invoke_async cs gd aux crs kwargs w = Some (w', r) ->
  ev ∈ new_events w w' ->
  (exists k e, ev = EvWarning k e) \/ ev = EvSleep 3 \/
  exists w0 w1 r0,
    leaves w w0 /\
    invoke_async_body cs gd aux crs kwargs w0 = (w1, r0) /\
    ev ∈ new_events w0 w1.
Proof. apply retrying_events. Qed.

(** C8, as the code has it: a call never changes the credential, the default
    model or the default schema flag stored on the solver, but it does write
    the solver: each inference call that returns is stored in
    self._response, so after the call that attribute holds the reply of the
    last inference call that returned during it, and keeps its previous
    value only when none returned. *)
Theorem C8_call_leaves_last_response cs gd aux crs kwargs w :
  exists w' r,
    invoke_async cs gd aux crs kwargs w = Some (w', r) /\
    _api_key (self w') = _api_key (self w) /\
    _model (self w') = _model (self w) /\
    _constraint_response_schema (self w') =
      _constraint_response_schema (self w) /\
    _response (self w') =
      match last_reply (new_events w w') with
      | Some resp => Some resp
      | None => _response (self w)
      end.
Proof.
  destruct (invoke_async_total cs gd aux crs kwargs w) as [[w' r] Hrun].
  exists w', r. split; [done |].
  assert (leaves w w') as (Ha & Hb & Hc & _ & Hr); [| done].
  unfold invoke_async in Hrun. revert Hrun.
  apply retrying_rel.
  - apply leaves_body.
  - intros n e w0. apply leaves_slept.
  - apply leaves_trans.
Qed.

(* ===================================================================== *)
(** ** The result *)
(* ===================================================================== *)

Lemma point_dump_validate p :
  Models.point_validate (Models.point_dump p) = Some p.
Proof. by destruct p. Qed.

Lemma points_dump_validate ps :
  Models.points_validate (map Models.point_dump ps) = Some ps.
Proof.
  induction ps as [| p ps IH]; [done |].
  cbn [map Models.points_validate]. by rewrite point_dump_validate, IH.
Qed.

(** Dumping a result and constructing it again gives it back. *)
Lemma model_dump_validate c :
  Models.model_validate (Models.model_dump c) = Return c.
Proof.
  unfold Models.model_validate, Models.model_dump.
  rewrite lookup_insert_eq, lookup_insert_ne, lookup_insert_eq by done.
  rewrite points_dump_validate. by destruct c.
Qed.


(* ===================================================================== *)
(** ** Further properties: every inference call of a call *)
(* ===================================================================== *)

Lemma model_to_use_settings s s' kwargs :
  _model s' = _model s -> model_to_use s' kwargs = model_to_use s kwargs.
Proof. intros H. unfold model_to_use, stored_model. by rewrite H. Qed.

Lemma effective_flag_settings s s' crs kwargs :
  _constraint_response_schema s' = _constraint_response_schema s ->
  effective_constraint_response_schema s' crs kwargs =
  effective_constraint_response_schema s crs kwargs.
Proof.
  intros H. unfold effective_constraint_response_schema. by rewrite H.
Qed.

(** The request of any inference call made during a call, in terms of the
    solver as the call found it. *)
Lemma invoke_async_generate cs gd aux crs kwargs w w' r m c cfg rep :
  invoke_async cs gd aux crs kwargs w = Some (w', r) ->
  EvGenerate m c cfg rep ∈ new_events w w' ->
  m = model_to_use (self w) kwargs /\
  is_None m = false /\
  (exists files, c = make_contents files aux) /\
  cfg = request_config
          (free_text_mode
             (effective_constraint_response_schema (self w) crs kwargs) m)
          m (delete "model" kwargs).
Proof.
  intros Hrun Hin.
  destruct (invoke_async_events _ _ _ _ _ _ _ _ _ Hrun Hin)
    as [(k & e & ?) | [? | (w0 & w1 & r0 & Hl & Hbody & Hin0)]];
    [done | done |].
  destruct Hl as (_ & Hmodel & Hflag & _).
  apply body_attempt in Hbody.
  destruct (attempt_generate _ _ _ _ _ _ _ _ _ _ _ _ Hbody Hin0)
    as (d & files & _ & _ & Hm & Hnone & Hc & Hcfg & _).
  cbv zeta in Hcfg.
  rewrite effective_flag_delete_model in Hcfg.
  rewrite (effective_flag_settings _ _ _ _ Hflag) in Hcfg.
  rewrite (model_to_use_settings _ _ _ Hmodel) in Hm.
  repeat split; eauto.
Qed.

(** X1: the model named in the call's kwargs is the one every inference call
    of the call is made with, whatever model the solver stores; only without
    a "model" key is the stored model used. *)
Theorem X1_call_model_overrides_stored cs gd aux crs kwargs w w' r
  m c cfg rep :
  invoke_async cs gd aux crs kwargs w = Some (w', r) ->
  EvGenerate m c cfg rep ∈ new_events w w' ->
  m <> PyNone /\
  (forall v, kwargs !! "model" = Some v -> m = v) /\
  (kwargs !! "model" = None ->
   exists stored, _model (self w) = Some stored /\ m = PyStr stored).
Proof.
  intros Hrun Hin.
  destruct (invoke_async_generate _ _ _ _ _ _ _ _ _ _ _ _ Hrun Hin)
    as (Hm & Hnone & _ & _).
  split; [by intros -> |]. split.
  - intros v Hv. rewrite Hm. unfold model_to_use. by rewrite Hv.
  - intros Hv. rewrite Hm in *. unfold model_to_use, stored_model in *.
    rewrite Hv in *. cbn in *.
    destruct (_model (self w)) as [stored |]; [eauto | done].
Qed.

Lemma no_model_run cs gd aux crs kwargs w :
  model_to_use (self w) kwargs = PyNone ->
  let e := ValueError NO_MODEL_MESSAGE in
  invoke_async cs gd aux crs kwargs w =
    Some (with_trace
            (trace w ++ [EvWarning 1 e; EvSleep 3; EvWarning 2 e; EvSleep 3])
            w,
          Raise (RetryError e)).
Proof.
  intros Hm e.
  rewrite invoke_async_unroll. cbv zeta.
  rewrite (body_no_model _ _ _ _ _ w Hm).
  rewrite (body_no_model _ _ _ _ _ (slept 1 e 3 w))
    by (by rewrite slept_run).
  rewrite (body_no_model _ _ _ _ _ (slept 2 e 3 (slept 1 e 3 w)))
    by (by rewrite !slept_run).
  rewrite !slept_run. unfold with_trace. cbn [trace self].
  by rewrite <- app_assoc.
Qed.

(** X2: passing model=None explicitly masks the stored model.  Even on a
    solver that has a default model the call then raises the ValueError in
    each of its three attempts, sends nothing, and ends in RetryError. *)
Theorem X2_explicit_none_masks_stored_model cs gd aux crs kwargs w :
  kwargs !! "model" = Some PyNone ->
  let e := ValueError NO_MODEL_MESSAGE in
  invoke_async cs gd aux crs kwargs w =
    Some (with_trace
            (trace w ++ [EvWarning 1 e; EvSleep 3; EvWarning 2 e; EvSleep 3])
            w,
          Raise (RetryError e)).
Proof.
  intros Hk. apply no_model_run. unfold model_to_use. by rewrite Hk.
Qed.

Lemma request_config_temperature free model kwargs :
  temperature (request_config free model kwargs) = 0%Z.
Proof.
  unfold request_config, make_config.
  destruct free; destruct (_ && _); reflexivity.
Qed.

(** X3: every inference call of a call, retries included, is made with
    temperature 0, with THINKING_PROMPT as system instruction, and with
    exactly one content entry, of role "user", holding two or three parts. *)
Theorem X3_every_request_is_deterministic_single_turn cs gd aux crs kwargs
  w w' r m c cfg rep :
  invoke_async cs gd aux crs kwargs w = Some (w', r) ->
  EvGenerate m c cfg rep ∈ new_events w w' ->
  temperature cfg = 0%Z /\
  system_instruction cfg = Some THINKING_PROMPT /\
  exists ps,
    c = [ {| role := "user"; parts := ps |} ] /\
    (2 <= length ps <= 3)%nat.
Proof.
  intros Hrun Hin.
  destruct (invoke_async_generate _ _ _ _ _ _ _ _ _ _ _ _ Hrun Hin)
    as (_ & _ & (files & ->) & ->).
  split; [apply request_config_temperature |].
  split; [apply request_config_system_instruction |].
  exists (make_parts files aux). split; [done |].
  destruct (make_parts_cases files aux) as [(s & _ & _ & ->) | (_ & ->)];
    cbn; lia.
Qed.

(** X4: which decoding mode a request asks for.  The JSON mime type and the
    result schema are set together, exactly when the effective flag is
    truthy and the model is not the legacy one; otherwise neither is set. *)
Theorem X4_schema_mode_iff cs gd aux crs kwargs w w' r m c cfg rep :
  invoke_async cs gd aux crs kwargs w = Some (w', r) ->
  EvGenerate m c cfg rep ∈ new_events w w' ->
  let flag := effective_constraint_response_schema (self w) crs kwargs in
  (truthy flag = true /\ py_in m LEGACY_MODELS = false ->
   response_mime_type cfg = Some "application/json" /\
   response_schema cfg = Some ImageAreaSelectChallenge_schema) /\
  (truthy flag = false \/ py_in m LEGACY_MODELS = true ->
   response_mime_type cfg = None /\ response_schema cfg = None) /\
  (response_mime_type cfg = None <-> response_schema cfg = None).
Proof.
  intros Hrun Hin flag.
  destruct (invoke_async_generate _ _ _ _ _ _ _ _ _ _ _ _ Hrun Hin)
    as (_ & _ & _ & ->).
  fold flag. unfold free_text_mode, request_config.
  destruct (make_config_response_format m (delete "model" kwargs))
    as [Hmime Hschema].
  destruct (truthy flag), (py_in m LEGACY_MODELS); cbn [negb orb];
    cbn [set_response_format response_mime_type response_schema];
    rewrite ?Hmime, ?Hschema;
    (split; [| split]); try done; intuition congruence.
Qed.

(** X5: what one attempt does with a reply that came back.  The reply is
    stored in self._response before it is decoded, so it stays there even
    when decoding raises.  A request without schema is decoded by running
    extract_first_json_block on the reply's text and handing the block to
    the result class, ignoring any pre-parsed object; a request with schema
    hands the result class the dump of the pre-parsed object when there is
    one, and falls back to the text block when there is none. *)
Theorem X5_reply_is_stored_then_decoded cs gd aux crs kwargs w w' r
  m c cfg resp :
  invoke_async_body cs gd aux crs kwargs w = (w', r) ->
  EvGenerate m c cfg (Return resp) ∈ new_events w w' ->
  let from_text :=
    match extract_first_json_block (text resp) with
    | Return block => ImageAreaSelectChallenge_new block
    | Raise e => Raise e
    end in
  _response (self w') = Some resp /\
  (response_schema cfg = None -> r = from_text) /\
  (response_schema cfg <> None ->
   forall p,
     parsed resp = Some p ->
     r = ImageAreaSelectChallenge_new (PyDict (Models.model_dump p))) /\
  (response_schema cfg <> None ->
   parsed resp = None -> r = from_text).
Proof.
  intros Hrun Hin from_text. apply body_attempt in Hrun.
  destruct (attempt_generate _ _ _ _ _ _ _ _ _ _ _ _ Hrun Hin)
    as (d & files & _ & _ & _ & _ & _ & Hcfg & -> & ->).
  cbv zeta in Hcfg. split; [done |].
  destruct (make_config_response_format m (delete "model" kwargs))
    as [_ Hschema].
  destruct (free_text_mode _ _); cbn [request_config decode] in *; subst cfg.
  - repeat split; try done; intros Hs; by rewrite Hschema in Hs.
  - cbn [set_response_format response_schema].
    repeat split; try done.
    + by intros _ p ->.
    + by intros _ ->.
Qed.

(* ===================================================================== *)
(** ** Further properties: what the retry loop adds *)
(* ===================================================================== *)

Lemma retry_log_app d1 d2 : retry_log (d1 ++ d2) = retry_log d1 ++ retry_log d2.
Proof. apply List.filter_app. Qed.

Lemma retry_log_network d :
  (forall ev, ev ∈ d -> is_network ev = true) -> retry_log d = [].
Proof.
  induction d as [| ev d IH]; intros H; [done |].
  cbn. rewrite (H ev) by apply list_elem_of_here. cbn.
  apply IH. intros ev' Hev'. apply H. by apply list_elem_of_further.
Qed.

Lemma body_retry_log cs gd aux crs kwargs w w' r :
  invoke_async_body cs gd aux crs kwargs w = (w', r) ->
  trace w' = trace w ++ new_events w w' /\ retry_log (new_events w w') = [].
Proof.
  intros Hrun. apply body_trace in Hrun as [Ht Hn].
  split; [done |]. by apply retry_log_network.
Qed.

Lemma new_events_slept n e w w' d :
  trace w' = trace (slept n e 3 w) ++ d ->
  trace w' = trace w ++ [EvWarning n e; EvSleep 3] ++ d.
Proof.
  rewrite slept_run. cbn [trace with_trace]. by rewrite <- app_assoc.
Qed.

(** X6: what the retry loop logs, for every call.  Between the attempts it
    adds a warning with the failed attempt's number followed by a 3-second
    sleep, and nothing else: no pause for a call whose first attempt works,
    at most two pauses, numbered 1 and 2 in that order.  A call that raises
    went through both pauses, and what it raises is always a RetryError,
    never the attempt's exception itself. *)
Theorem X6_retry_log_shape cs gd aux crs kwargs w w' r :
  invoke_async cs gd aux crs kwargs w = Some (w', r) ->
  let log := retry_log (new_events w w') in
  (log = [] \/
   (exists e1, log = [EvWarning 1 e1; EvSleep 3]) \/
   (exists e1 e2,
      log = [EvWarning 1 e1; EvSleep 3; EvWarning 2 e2; EvSleep 3])) /\
  (forall e, r = Raise e ->
     exists e1 e2 e3,
       log = [EvWarning 1 e1; EvSleep 3; EvWarning 2 e2; EvSleep 3] /\
       e = RetryError e3).
Proof.
  rewrite invoke_async_unroll. cbv zeta.
  destruct (invoke_async_body _ _ _ _ _ w) as [w1 r1] eqn:H1.
  apply body_retry_log in H1 as [Ht1 Hl1].
  destruct r1 as [a | e1].
  { intros [= <- <-]. cbv zeta. rewrite Hl1. split; [by left | done]. }
  destruct (invoke_async_body _ _ _ _ _ (slept 1 e1 3 w1)) as [w2 r2] eqn:H2.
  apply body_retry_log in H2 as [Ht2 Hl2].
  apply new_events_slept in Ht2. rewrite Ht1, <- app_assoc in Ht2.
  destruct r2 as [a | e2].
  { intros [= <- <-]. cbv zeta.
    rewrite (new_events_app _ _ _ Ht2), !retry_log_app, Hl1, Hl2.
    split; [right; left; by exists e1 | done]. }
  destruct (invoke_async_body _ _ _ _ _ (slept 2 e2 3 w2)) as [w3 r3] eqn:H3.
  apply body_retry_log in H3 as [Ht3 Hl3].
  apply new_events_slept in Ht3. rewrite Ht2, <- app_assoc in Ht3.
  assert (retry_log (new_events w w3) =
          [EvWarning 1 e1; EvSleep 3; EvWarning 2 e2; EvSleep 3]) as Hlog.
  { rewrite (new_events_app _ _ _ Ht3), !retry_log_app, Hl1, Hl2, Hl3.
    done. }
  destruct r3 as [a | e3]; intros [= <- <-]; cbv zeta; rewrite Hlog.
  - split; [right; right; by exists e1, e2 | done].
  - split; [right; right; by exists e1, e2 |].
    intros e [= <-]. by exists e1, e2, e3.
Qed.

Lemma uploads_done_counts a b d r :
  UploadsDone a b d r ->
  List.filter is_upload_start d = [] /\ List.filter is_generate d = [].
Proof. by destruct 1. Qed.

Lemma body_counts cs gd aux crs kwargs w w' r :
  is_None (model_to_use (self w) kwargs) = false ->
  invoke_async_body cs gd aux crs kwargs w = (w', r) ->
  length (List.filter is_upload_start (new_events w w')) = 2%nat /\
  (length (List.filter is_generate (new_events w w')) <= 1)%nat /\
  List.filter is_warning (new_events w w') = [].
Proof.
  intros Hm Hrun. apply body_attempt in Hrun.
  inversion Hrun as
    [Hm' | d e Hm' Hd | d files e model free contents config t Hm' Hd Hcall
     | d files resp model free contents config t Hm' Hd Hcall];
    subst; clear Hrun; [congruence | | |].
  - unfold with_trace. rewrite new_events_with_trace.
    destruct Hd; cbn; auto.
  - subst t. unfold with_trace. rewrite <- app_assoc; cbn [app].
    rewrite new_events_with_trace.
    inversion Hd; subst; cbn; auto.
  - subst t. rewrite <- app_assoc; cbn [app].
    rewrite new_events_with_trace.
    inversion Hd; subst; cbn; auto.
Qed.

Lemma resolvable_after_attempt cs gd aux crs kwargs w w1 r n e :
  is_None (model_to_use (self w) kwargs) = false ->
  invoke_async_body cs gd aux crs kwargs w = (w1, r) ->
  is_None (model_to_use (self (slept n e 3 w1)) kwargs) = false.
Proof.
  intros Hm Hrun. apply leaves_body in Hrun as (_ & Hmodel & _).
  rewrite slept_run. cbn [self with_trace].
  by rewrite (model_to_use_settings _ _ _ Hmodel).
Qed.

(** X7: uploads are not shared between attempts.  When a model is
    resolvable, every attempt of a call issues its own two upload requests
    and at most one inference call, so a call with k logged retries has made
    2(k+1) upload requests and at most k+1 inference calls; with at most
    three attempts that is never more than six uploads and three inference
    calls. *)
Theorem X7_each_attempt_uploads_again cs gd aux crs kwargs w w' r :
  is_None (model_to_use (self w) kwargs) = false ->
  invoke_async cs gd aux crs kwargs w = Some (w', r) ->
  let d := new_events w w' in
  let attempts := S (length (List.filter is_warning d)) in
  length (List.filter is_upload_start d) = (2 * attempts)%nat /\
  (length (List.filter is_generate d) <= attempts)%nat /\
  (attempts <= 3)%nat.
Proof.
  intros Hm. rewrite invoke_async_unroll. cbv zeta.
  destruct (invoke_async_body _ _ _ _ _ w) as [w1 r1] eqn:H1.
  pose proof (body_counts _ _ _ _ _ _ _ _ Hm H1) as (Hu1 & Hg1 & Hw1).
  pose proof (proj1 (body_trace _ _ _ _ _ _ _ _ H1)) as Ht1.
  destruct r1 as [a | e1].
  { intros [= <- <-]. rewrite Hu1, Hw1. cbn. lia. }
  pose proof (resolvable_after_attempt _ _ _ _ _ _ _ _ 1%nat e1 Hm H1) as Hm2.
  destruct (invoke_async_body _ _ _ _ _ (slept 1 e1 3 w1)) as [w2 r2] eqn:H2.
  pose proof (body_counts _ _ _ _ _ _ _ _ Hm2 H2) as (Hu2 & Hg2 & Hw2).
  pose proof (proj1 (body_trace _ _ _ _ _ _ _ _ H2)) as Ht2.
  apply new_events_slept in Ht2. rewrite Ht1, <- app_assoc in Ht2.
  destruct r2 as [a | e2].
  { intros [= <- <-]. rewrite (new_events_app _ _ _ Ht2).
    rewrite !List.filter_app, !length_app, Hu1, Hu2, Hw1, Hw2.
    cbn. lia. }
  pose proof (resolvable_after_attempt _ _ _ _ _ _ _ _ 2%nat e2 Hm2 H2)
    as Hm3.
  destruct (invoke_async_body _ _ _ _ _ (slept 2 e2 3 w2)) as [w3 r3] eqn:H3.
  pose proof (body_counts _ _ _ _ _ _ _ _ Hm3 H3) as (Hu3 & Hg3 & Hw3).
  pose proof (proj1 (body_trace _ _ _ _ _ _ _ _ H3)) as Ht3.
  apply new_events_slept in Ht3. rewrite Ht2, <- app_assoc in Ht3.
  assert (new_events w w3 =
          new_events w w1 ++ [EvWarning 1 e1; EvSleep 3] ++
          new_events (slept 1 e1 3 w1) w2 ++ [EvWarning 2 e2; EvSleep 3] ++
          new_events (slept 2 e2 3 w2) w3) as Hd
    by (apply new_events_app; by rewrite Ht3, <- !app_assoc).
  destruct r3 as [a | e3]; intros [= <- <-]; rewrite Hd;
    rewrite !List.filter_app, !length_app, Hu1, Hu2, Hu3, Hw1, Hw2, Hw3;
    cbn; lia.
Qed.

(* ===================================================================== *)
(** ** Further properties: what a call reads *)
(* ===================================================================== *)

Lemma retrying_ext {A} max wait (fn gn : M A) :
  (forall w, fn w = gn w) ->
  forall fuel n w,
    retrying max wait fuel n fn w = retrying max wait fuel n gn w.
Proof.
  intros Hext. induction fuel as [| fuel IH]; intros n w; [done |].
  cbn [retrying]. rewrite <- Hext.
  destruct (fn w) as [w1 [a | e]]; [done |].
  destruct (stop_after_attempt max n); [done | apply IH].
Qed.

Lemma make_config_kwargs model k1 k2 :
  k1 !! "thinking_budget" = k2 !! "thinking_budget" ->
  make_config model (delete "model" k1) =
  make_config model (delete "model" k2).
Proof.
  intros H. unfold make_config, kwargs_get.
  by rewrite !lookup_delete_ne, H.
Qed.

Lemma effective_flag_kwargs s crs k1 k2 :
  k1 !! "enable_response_schema" = k2 !! "enable_response_schema" ->
  effective_constraint_response_schema s crs (delete "model" k1) =
  effective_constraint_response_schema s crs (delete "model" k2).
Proof.
  intros H. rewrite !effective_flag_delete_model.
  unfold effective_constraint_response_schema, kwargs_get. by rewrite H.
Qed.

(** X8: of the keyword arguments only "model", "enable_response_schema" and
    "thinking_budget" are ever read.  Two calls whose kwargs agree on these
    three keys behave identically, whatever other keys they carry. *)
Theorem X8_other_kwargs_are_ignored cs gd aux crs
  (k1 k2 : gmap string PyVal) w :
  k1 !! "model" = k2 !! "model" ->
  k1 !! "enable_response_schema" = k2 !! "enable_response_schema" ->
  k1 !! "thinking_budget" = k2 !! "thinking_budget" ->
  invoke_async cs gd aux crs k1 w = invoke_async cs gd aux crs k2 w.
Proof.
  intros Hmodel Hflag Hbudget. unfold invoke_async.
  apply retrying_ext. intros w0.
  unfold invoke_async_body. rewrite !bind_get_self. cbv zeta.
  assert (model_to_use (self w0) k1 = model_to_use (self w0) k2) as ->
    by (unfold model_to_use; by rewrite Hmodel).
  rewrite (effective_flag_kwargs _ _ _ _ Hflag).
  by rewrite (make_config_kwargs _ _ _ Hbudget).
Qed.

Lemma blind_ret {A} (a : A) : Blind (mret a).
Proof. by intros w v Hs. Qed.

Lemma blind_lift {A} (r : Outcome A) : Blind (lift r).
Proof. by intros w v Hs. Qed.

Lemma blind_raise {A} (e : exn) : Blind (@raise A e).
Proof. by intros w v Hs. Qed.

Lemma blind_emit ev : Blind (emit ev).
Proof.
  intros w v (Ht & Hs). split; [| done].
  split; [| done]. cbn. by rewrite Ht.
Qed.

Lemma blind_get_trace : Blind get_trace.
Proof. intros w v Hs. split; [done |]. cbn. by destruct Hs as [-> _]. Qed.

Lemma blind_await {A} (reply : list Event -> Outcome A) record :
  Blind (await reply record).
Proof.
  intros w v (Ht & Hs). unfold await. cbn. rewrite Ht.
  split; [| done]. by split.
Qed.

Lemma blind_set_response r : Blind (set_response r).
Proof. intros w v (Ht & Ha & Hm & Hc). by repeat split. Qed.

Lemma blind_bind {A B} (m : M A) (f : A -> M B) :
  Blind m -> (forall a, Blind (f a)) -> Blind (m ≫= f).
Proof.
  intros Hm Hf w v Hs. destruct (Hm w v Hs) as [Hs1 Hr].
  unfold mbind, M_bind.
  destruct (m w) as [w1 r1], (m v) as [v1 r2]. cbn in Hs1, Hr. subst r2.
  destruct r1 as [a | e]; [by apply Hf | done].
Qed.

Lemma blind_gather_uploads client a b : Blind (gather_uploads client a b).
Proof.
  unfold gather_uploads, upload_done.
  apply blind_bind; [apply blind_emit | intros _].
  apply blind_bind; [apply blind_emit | intros _].
  apply blind_bind; [apply blind_get_trace | intros t].
  destruct (first_completes_first t);
    (apply blind_bind; [apply blind_await | intros ?];
     apply blind_bind; [apply blind_await | intros ?];
     apply blind_ret).
Qed.

Lemma blind_call client model contents config
  (K : GenerateContentResponse -> M Models.ImageAreaSelectChallenge) :
  (forall r, Blind (K r)) ->
  Blind (r ← generate_content client model contents config;
         set_response r;; K r).
Proof.
  intros HK. unfold generate_content.
  apply blind_bind; [apply blind_await | intros r].
  apply blind_bind; [apply blind_set_response | intros _]. apply HK.
Qed.

Lemma blind_body cs gd aux crs kwargs :
  Blind (invoke_async_body cs gd aux crs kwargs).
Proof.
  intros w v Hs. pose proof Hs as (_ & Ha & Hm & Hc).
  unfold invoke_async_body.
  match goal with
  | |- context [@mbind _ _ _ _ ?K get_self] => set (k := K)
  end.
  rewrite !bind_get_self.
  assert (forall s, Blind (k s)) as Hk.
  { intros s. subst k. cbv beta zeta.
    destruct (is_None _); [apply blind_raise |].
    apply blind_bind; [apply blind_gather_uploads | intros files].
    destruct (free_text_mode _ _); apply blind_call; intros r.
    - apply blind_lift.
    - destruct (parsed r); apply blind_lift. }
  assert (k (self v) = k (self w)) as ->.
  { subst k. cbv beta zeta.
    rewrite (model_to_use_settings (self w) (self v)) by done.
    rewrite (effective_flag_settings (self w) (self v)) by done.
    by rewrite Ha. }
  by apply Hk.
Qed.

Lemma same_but_response_slept n e wait w v :
  same_but_response w v ->
  same_but_response (slept n e wait w) (slept n e wait v).
Proof.
  intros (Ht & Hs). rewrite !slept_run. split; [| done].
  cbn. by rewrite Ht.
Qed.

Lemma retrying_blind {A} max wait (fn : M A) :
  Blind fn ->
  forall fuel n w v,
    same_but_response w v ->
    match retrying max wait fuel n fn w, retrying max wait fuel n fn v with
    | Some (w', r), Some (v', r') => same_but_response w' v' /\ r = r'
    | None, None => True
    | _, _ => False
    end.
Proof.
  intros Hfn. induction fuel as [| fuel IH]; intros n w v Hs; [done |].
  cbn [retrying]. destruct (Hfn w v Hs) as [Hs1 Hr].
  destruct (fn w) as [w1 r1], (fn v) as [v1 r2]. cbn in Hs1, Hr. subst r2.
  destruct r1 as [a | e]; [done |].
  destruct (stop_after_attempt max n); [done |].
  apply IH. by apply same_but_response_slept.
Qed.

(** X9: a call never reads self._response.  Started on two solvers that
    differ only in that attribute, with the same history behind them, a call
    sends the same requests, logs the same retries and gives the same result
    or the same exception; and the two solvers still differ at most in
    self._response afterwards. *)
Theorem X9_earlier_response_is_never_read cs gd aux crs kwargs w v :
  same_but_response w v ->
  exists w' v' r,
    invoke_async cs gd aux crs kwargs w = Some (w', r) /\
    invoke_async cs gd aux crs kwargs v = Some (v', r) /\
    new_events w w' = new_events v v' /\
    same_but_response w' v'.
Proof.
  intros Hs.
  pose proof (retrying_blind 3 3 _ (blind_body cs gd aux crs kwargs)
                3 1 w v Hs) as H.
  fold (invoke_async cs gd aux crs kwargs w) in H.
  fold (invoke_async cs gd aux crs kwargs v) in H.
  destruct (invoke_async_total cs gd aux crs kwargs w) as [[w' r] Hw].
  destruct (invoke_async_total cs gd aux crs kwargs v) as [[v' r'] Hv].
  rewrite Hw, Hv in H. destruct H as [Hs' <-].
  exists w', v', r. repeat split; try done; try apply Hs'.
  unfold new_events. destruct Hs as [-> _]. by destruct Hs' as [-> _].
Qed.

(** X10: an attempt writes the solver only through a reply.  When no
    inference call of the attempt returned (no model, a failed upload, a
    failed inference call) the solver object is exactly as it was, stored
    response included. *)
Theorem X10_attempt_without_reply_leaves_solver cs gd aux crs kwargs
  w w' r :
  invoke_async_body cs gd aux crs kwargs w = (w', r) ->
  (forall m c cfg resp,
     EvGenerate m c cfg (Return resp) ∉ new_events w w') ->
  self w' = self w /\ exists e, r = Raise e.
Proof.
  intros Hrun Hno. apply body_attempt in Hrun.
  inversion Hrun as
    [Hm | d e Hm Hd | d files e model free contents config t Hm Hd Hcall
     | d files resp model free contents config t Hm Hd Hcall];
    subst; clear Hrun; eauto.
  exfalso. apply (Hno model contents config resp).
  subst t. rewrite <- app_assoc; cbn [app]. rewrite new_events_with_trace.
  do 2 apply list_elem_of_further.
  apply elem_of_app. right. apply list_elem_of_here.
Qed.

Lemma retrying_step {A} max wait fuel n (fn : M A) w :
  retrying max wait (S fuel) n fn w =
  match fn w with
  | (w1, Return a) => Some (w1, Return a)
  | (w1, Raise e) =>
      if stop_after_attempt max n then Some (w1, Raise (RetryError e))
      else retrying max wait fuel (S n) fn (slept n e wait w1)
  end.
Proof. reflexivity. Qed.

Lemma invoke_async_first_events cs gd aux crs kwargs w w' r :
  is_None (model_to_use (self w) kwargs) = false ->
  invoke_async cs gd aux crs kwargs w = Some (w', r) ->
  exists rest,
    new_events w w' = EvUploadStart cs :: EvUploadStart gd :: rest.
Proof.
  intros Hm Hrun.
  assert (exists w1 r1 rest1,
            invoke_async_body cs gd aux crs kwargs w = (w1, r1) /\
            new_events w w1 = EvUploadStart cs :: EvUploadStart gd :: rest1 /\
            leaves w w1 /\ leaves w1 w') as
    (w1 & r1 & rest1 & Hbody & Hev & Hl1 & Hl2).
  { destruct (invoke_async_body cs gd aux crs kwargs w) as [w1 r1] eqn:Hbody.
    pose proof (leaves_body _ _ _ _ _ _ _ _ Hbody) as Hl1.
    assert (exists rest1,
              new_events w w1 =
                EvUploadStart cs :: EvUploadStart gd :: rest1) as [rest1 Hev].
    { pose proof (body_attempt _ _ _ _ _ _ _ _ Hbody) as Hatt.
      inversion Hatt as
        [Hm' | d e Hm' Hd
         | d files e model free contents config t Hm' Hd Hcall
         | d files resp model free contents config t Hm' Hd Hcall];
        subst; [congruence | | |].
      - unfold with_trace. rewrite new_events_with_trace. eauto.
      - subst t. unfold with_trace. rewrite <- app_assoc; cbn [app].
        rewrite new_events_with_trace. eauto.
      - subst t. rewrite <- app_assoc; cbn [app].
        rewrite new_events_with_trace. eauto. }
    exists w1, r1, rest1.
    split; [done |]. split; [done |]. split; [done |].
    unfold invoke_async in Hrun. rewrite retrying_step, Hbody in Hrun.
    destruct r1 as [a | e].
    - injection Hrun as <- _. apply leaves_refl.
    - change (stop_after_attempt 3 1) with false in Hrun.
      apply (retrying_rel leaves) in Hrun;
        [| apply leaves_body | intros n e0 w0; apply leaves_slept
         | apply leaves_trans].
      eapply leaves_trans; [apply leaves_slept | exact Hrun]. }
  rewrite (leaves_new_events _ _ _ Hl1 Hl2), Hev. cbn [app]. eauto.
Qed.

(** X11: a solver built with the constructor's defaults and called without
    a model or schema override goes to the network (the call starts with
    the two upload requests, it is not a configuration error), makes every
    inference call with DEFAULT_SCOT_MODEL, and asks for free text: no JSON
    mime type and no result schema are ever set. *)
Theorem X11_default_solver_uses_default_model_and_free_text
  gemini_api_key cs gd aux kwargs w w' r :
  self w = init gemini_api_key None None ->
  kwargs !! "model" = None ->
  kwargs !! "enable_response_schema" = None ->
  invoke_async cs gd aux None kwargs w = Some (w', r) ->
  (exists rest,
     new_events w w' = EvUploadStart cs :: EvUploadStart gd :: rest) /\
  forall m c cfg rep,
    EvGenerate m c cfg rep ∈ new_events w w' ->
    m = PyStr DEFAULT_SCOT_MODEL /\
    response_mime_type cfg = None /\
    response_schema cfg = None.
Proof.
  intros Hself Hmodel Hflag Hrun.
  assert (model_to_use (self w) kwargs = PyStr DEFAULT_SCOT_MODEL) as Hm.
  { unfold model_to_use, stored_model. by rewrite Hmodel, Hself. }
  split.
  { apply (invoke_async_first_events _ _ _ _ _ _ _ _ ltac:(by rewrite Hm) Hrun). }
  intros m c cfg rep Hin.
  destruct (invoke_async_generate _ _ _ _ _ _ _ _ _ _ _ _ Hrun Hin)
    as (-> & _ & _ & ->).
  rewrite Hm. split; [done |].
  assert (effective_constraint_response_schema (self w) None kwargs =
          PyBool false) as ->.
  { unfold effective_constraint_response_schema, kwargs_get.
    by rewrite Hflag, Hself. }
  cbn [free_text_mode truthy negb orb request_config].
  apply make_config_response_format.
Qed.

(** X12: a call ends exactly where its last attempt ends.  The value a call
    returns is the value its last attempt returned, unchanged; the exception
    a call raises is RetryError around the exception its last attempt
    raised; and nothing is logged, slept or sent after that attempt. *)
Theorem X12_call_ends_with_last_attempt cs gd aux crs kwargs w w' r :
  invoke_async cs gd aux crs kwargs w = Some (w', r) ->
  exists w0 r0,
    leaves w w0 /\
    invoke_async_body cs gd aux crs kwargs w0 = (w', r0) /\
    match r with
    | Return a => r0 = Return a
    | Raise e => exists e0, r0 = Raise e0 /\ e = RetryError e0
    end.
Proof.
  unfold invoke_async. apply retrying_last.
  - apply leaves_refl.
  - apply leaves_body.
  - intros n e w0. apply leaves_slept.
  - apply leaves_trans.
Qed.

End SpatialPointReasoner.

(* ===================================================================== *)
(** ** The statements at concrete calls *)
(* ===================================================================== *)

Ltac find_event :=
  vm_compute;
  repeat first [apply list_elem_of_here | apply list_elem_of_further].


Lemma C10_text_part_only_for_nonempty_string_witness :
  let w := Stub.start (Some "gemini-2.5-pro") false in
  let run :=
    invoke_async_body (Stub.replying (Stub.reply [])) Stub.reversed
      Stub.MODELS Stub.no_block Models.construct "challenge.png" "grid.png" (PyStr "")
      None ∅ w in
  let contents :=
    [ {| role := "user";
         parts := [from_uri "files/challenge.png" "image/png";
                   from_uri "files/grid.png" "image/png"] |} ] in
  exists f0 f1,
    contents =
      [ {| role := "user";
           parts := [from_uri (uri f0) (mime_type f0);
                     from_uri (uri f1) (mime_type f1)] |} ].
Proof.
  intros w run contents.
  destruct (C10_text_part_only_for_nonempty_string
              (Stub.replying (Stub.reply [])) Stub.reversed Stub.MODELS
              Stub.no_block Models.construct "challenge.png" "grid.png" (PyStr "") None ∅
              w run.1 run.2
              (PyStr "gemini-2.5-pro") contents
              (make_config Stub.MODELS (PyStr "gemini-2.5-pro") ∅)
              (Return (Stub.reply [])))
    as (f0 & f1 & texts & Hc & Hnone & _).
  - apply surjective_pairing.
  - find_event.
  - exists f0, f1. rewrite Hc, Hnone, app_nil_r; auto.
Defined.

Lemma C5_legacy_model_uses_free_text_witness :
  let legacy := "gemini-2.0-flash-thinking-exp-01-21" in
  let w := Stub.start (Some legacy) true in
  let point := {| Models.x := 12; Models.y := 34 |} in
  let kwargs := <["enable_response_schema" := PyBool true]> ∅ in
  let run :=
    invoke_async_body (Stub.replying (Stub.text_reply [])) Stub.in_order
      Stub.MODELS Stub.reading Models.construct "challenge.png" "grid.png"
      PyNone (Some true) kwargs w in
  let config := make_config Stub.MODELS (PyStr legacy) kwargs in
  response_mime_type config = None /\
  response_schema config = None /\
  parsed (Stub.text_reply []) = Some (Stub.answer []) /\
  run.2 = Return (Stub.answer [point]).
Proof.
  intros legacy w point kwargs run config.
  destruct (C5_legacy_model_uses_free_text
              (Stub.replying (Stub.text_reply [])) Stub.in_order Stub.MODELS
              Stub.reading Models.construct "challenge.png" "grid.png" PyNone
              (Some true) kwargs w run.1 run.2
              (PyStr legacy)
              [ {| role := "user";
                   parts := [from_uri "files/challenge.png" "image/png";
                             from_uri "files/grid.png" "image/png"] |} ]
              config (Return (Stub.text_reply [])))
    as (_ & Hmime & Hschema & Hres).
  - apply surjective_pairing.
  - vm_compute. reflexivity.
  - find_event.
  - split; [exact Hmime |]. split; [exact Hschema |].
    split; [reflexivity |].
    rewrite (Hres _ eq_refl). vm_compute. reflexivity.
Defined.

Lemma C7_thinking_config_iff_witness :
  let w := Stub.start (Some "gemini-2.5-pro") false in
  let kwargs := <["thinking_budget" := PyInt 1024]> ∅ in
  let run :=
    invoke_async_body (Stub.replying (Stub.reply [])) Stub.in_order
      Stub.MODELS Stub.no_block Models.construct "challenge.png" "grid.png" PyNone
      None kwargs w in
  let config := make_config Stub.MODELS (PyStr "gemini-2.5-pro") kwargs in
  thinking_config config =
    Some {| include_thoughts := true; thinking_budget := PyInt 1024 |}.
Proof.
  intros w kwargs run config.
  destruct (C7_thinking_config_iff
              (Stub.replying (Stub.reply [])) Stub.in_order Stub.MODELS
              Stub.no_block Models.construct "challenge.png" "grid.png" PyNone
              None kwargs w run.1 run.2
              (PyStr "gemini-2.5-pro")
              [ {| role := "user";
                   parts := [from_uri "files/challenge.png" "image/png";
                             from_uri "files/grid.png" "image/png"] |} ]
              config (Return (Stub.reply [])))
    as (_ & Hiff & _).
  - apply surjective_pairing.
  - find_event.
  - apply Hiff. exists "gemini-2.5-pro", (PyInt 1024).
    repeat split; vm_compute; auto.
    apply list_elem_of_here.
Defined.

Lemma C6_uploads_before_inference_witness :
  let w := Stub.start (Some "gemini-2.5-pro") false in
  let e := ProviderError "503" in
  let run :=
    invoke_async_body
      (Stub.rejecting "grid.png" e (Stub.reply [])) Stub.in_order
      Stub.MODELS Stub.no_block Models.construct "challenge.png" "grid.png" PyNone
      None ∅ w in
  EvUploadDone "grid.png" (Raise e) ∈ new_events w run.1 /\
  run.2 = Raise e /\
  forall ev, ev ∈ new_events w run.1 -> is_generate ev = false.
Proof.
  intros w e run.
  assert (EvUploadDone "grid.png" (Raise e) ∈ new_events w run.1) as Hin
    by find_event.
  split; [exact Hin |].
  apply (proj2 (proj2
           (C6_uploads_before_inference
              (Stub.rejecting "grid.png" e (Stub.reply [])) Stub.in_order
              Stub.MODELS Stub.no_block Models.construct "challenge.png" "grid.png" PyNone
              None ∅ w run.1 run.2 (surjective_pairing _)))
         "grid.png" e Hin).
Defined.

Lemma C1_no_model_fails_after_retries_witness :
  let w := Stub.start None false in
  let e := ValueError NO_MODEL_MESSAGE in
  invoke_async (Stub.replying (Stub.reply [])) Stub.in_order Stub.MODELS
    Stub.no_block Models.construct "challenge.png" "grid.png" (PyStr "") None ∅ w =
  Some (with_trace [EvWarning 1 e; EvSleep 3; EvWarning 2 e; EvSleep 3] w,
        Raise (RetryError e)).
Proof.
  intros w e.
  assert ((∅ : gmap string PyVal) !! "model" = None) as Hkwargs
    by reflexivity.
  assert (_model (self w) = None) as Hstored by reflexivity.
  apply (proj1 (proj2
           (C1_no_model_fails_after_retries
              (Stub.replying (Stub.reply [])) Stub.in_order Stub.MODELS
              Stub.no_block Models.construct "challenge.png" "grid.png" (PyStr "") None ∅ w
              Hkwargs Hstored))).
Defined.

(** C1 fails as stated: with no model anywhere the caller does not get the
    ValueError at once; the error is retried twice, six seconds pass, and
    the exception that arrives is a RetryError. *)
Lemma C1_no_model_counterexample :
  let w := Stub.start None false in
  let e := ValueError NO_MODEL_MESSAGE in
  exists w',
    invoke_async (Stub.replying (Stub.reply [])) Stub.in_order Stub.MODELS
      Stub.no_block Models.construct "challenge.png" "grid.png" (PyStr "") None ∅ w =
      Some (w', Raise (RetryError e)) /\
    @Raise Models.ImageAreaSelectChallenge (RetryError e) <> Raise e /\
    new_events w w' = [EvWarning 1 e; EvSleep 3; EvWarning 2 e; EvSleep 3].
Proof.
  intros w e. eexists. split; [vm_compute; reflexivity |].
  split; [discriminate | vm_compute; reflexivity].
Qed.

Lemma C2_three_attempts_then_retry_error_witness :
  let w := Stub.start (Some "gemini-2.5-pro") false in
  let e := ProviderError "503" in
  let attempt :=
    [EvUploadStart "challenge.png"; EvUploadStart "grid.png";
     EvUploadDone "challenge.png" (Raise e)] in
  let pause n := [EvWarning n e; EvSleep 3] in
  invoke_async (Stub.failing e) Stub.in_order Stub.MODELS
    Stub.no_block Models.construct "challenge.png" "grid.png" (PyStr "") None ∅ w =
  Some (with_trace
          (attempt ++ pause 1%nat ++ attempt ++ pause 2%nat ++ attempt) w,
        Raise (RetryError e)).
Proof.
  intros w e attempt pause.
  set (w1 := with_trace attempt w).
  set (w2 := with_trace (attempt ++ pause 1%nat ++ attempt) w).
  set (w3 := with_trace
               (attempt ++ pause 1%nat ++ attempt ++ pause 2%nat ++ attempt)
               w).
  apply (C2_three_attempts_then_retry_error
           (Stub.failing e) Stub.in_order Stub.MODELS
           Stub.no_block Models.construct "challenge.png" "grid.png" (PyStr "") None ∅
           w w1 w2 w3 e e e); vm_compute; reflexivity.
Defined.

(** C2 fails as stated: after the third failed attempt the caller does not
    receive the last exception itself but a RetryError that wraps it. *)
Lemma C2_retry_exhaustion_counterexample :
  let w := Stub.start (Some "gemini-2.5-pro") false in
  let e := ProviderError "503" in
  exists w' r,
    invoke_async (Stub.failing e) Stub.in_order Stub.MODELS
      Stub.no_block Models.construct "challenge.png" "grid.png" (PyStr "") None ∅ w =
      Some (w', r) /\
    r = Raise (RetryError e) /\
    r <> Raise e.
Proof.
  intros w e. eexists _, _. split; [vm_compute; reflexivity |].
  split; [reflexivity | discriminate].
Qed.

Lemma C4_flag_precedence_witness :
  effective_constraint_response_schema
    (Stub.solver (Some "gemini-2.5-pro") false) (Some false)
    (<["enable_response_schema" := PyBool true]> ∅) = PyBool true.
Proof.
  apply (proj1
           (C4_flag_precedence
              (Stub.replying (Stub.reply [])) Stub.in_order Stub.MODELS
              Stub.no_block Models.construct
              (Stub.solver (Some "gemini-2.5-pro") false) (Some false)
              (<["enable_response_schema" := PyBool true]> ∅))
           (PyBool true)); [reflexivity | discriminate].
Defined.

(** C4 fails as stated: an explicit per-call constraint_response_schema=True
    does not take priority; enable_response_schema=False from kwargs
    overrides it, and the call goes out in free-text mode. *)
Lemma C4_flag_precedence_counterexample :
  let s := Stub.solver (Some "gemini-2.5-pro") false in
  let kwargs := <["enable_response_schema" := PyBool false]> ∅ in
  let w := {| trace := []; self := s |} in
  let run :=
    invoke_async_body (Stub.replying (Stub.reply [])) Stub.in_order
      Stub.MODELS Stub.no_block Models.construct "challenge.png" "grid.png" PyNone
      (Some true) kwargs w in
  effective_constraint_response_schema s (Some true) kwargs = PyBool false /\
  effective_constraint_response_schema s (Some true) kwargs <> PyBool true /\
  exists contents config reply,
    new_events w run.1 =
      [EvUploadStart "challenge.png"; EvUploadStart "grid.png";
       EvUploadDone "challenge.png" (Return (Stub.file_of "challenge.png"));
       EvUploadDone "grid.png" (Return (Stub.file_of "grid.png"));
       EvGenerate (PyStr "gemini-2.5-pro") contents config reply] /\
    response_mime_type config = None /\
    response_schema config = None.
Proof.
  intros s kwargs w run.
  split; [reflexivity |]. split; [discriminate |].
  eexists _, _, _. split; [vm_compute; reflexivity |].
  split; reflexivity.
Qed.

(** C8 fails as stated: a call whose inference call returned leaves the
    provider's reply on the solver, where it stays for whoever uses the
    solver next. *)
Lemma C8_state_persists_counterexample :
  let w := Stub.start (Some "gemini-2.5-pro") false in
  exists w' r,
    invoke_async (Stub.replying (Stub.reply [])) Stub.in_order Stub.MODELS
      Stub.no_block Models.construct "challenge.png" "grid.png" PyNone None ∅ w =
      Some (w', r) /\
    _response (self w) = None /\
    _response (self w') = Some (Stub.reply []) /\
    self w' <> self w.
Proof.
  intros w. eexists _, _. split; [vm_compute; reflexivity |].
  split; [reflexivity |]. split; [reflexivity | discriminate].
Qed.



(** Two failed attempts and a third that works: the call returns the third
    attempt's result, and exactly the two failures were logged. *)
Example third_attempt_succeeds :
  let w := Stub.start (Some "gemini-2.5-pro") true in
  let e := ProviderError "429" in
  let point := {| Models.x := 12; Models.y := 34 |} in
  exists w',
    invoke_async (Stub.flaky e (Stub.reply [point])) Stub.reversed
      Stub.MODELS Stub.no_block Models.construct "challenge.png" "grid.png" PyNone None ∅ w =
      Some (w', Return (Stub.answer [point])) /\
    List.filter is_warning (trace w') = [EvWarning 1 e; EvWarning 2 e].
Proof.
  intros w e point. eexists. split; vm_compute; reflexivity.
Qed.

(* ===================================================================== *)
(** ** Further properties: the credential *)
(* ===================================================================== *)

Lemma retrying_agree {A} (I : World -> Prop) max wait (fn gn : M A) :
  (forall w, I w -> fn w = gn w) ->
  (forall w w1 r, I w -> fn w = (w1, r) -> I w1) ->
  (forall n e w, I w -> I (slept n e wait w)) ->
  forall fuel n w,
    I w -> retrying max wait fuel n fn w = retrying max wait fuel n gn w.
Proof.
  intros Hext Hfn Hsleep.
  induction fuel as [| fuel IH]; intros n w Hw; [done |].
  cbn [retrying]. rewrite <- (Hext w Hw).
  destruct (fn w) as [w1 [a | e]] eqn:Hrun; [done |].
  destruct (stop_after_attempt max n); [done |].
  apply IH. eauto.
Qed.

(** X13: every upload and every inference call of a call goes through the
    client built from the API key stored on the solver, and no other: two
    client factories that agree on that one key give the same call, however
    they differ on other keys. *)
Theorem X13_only_the_stored_key_is_used
  (client1 client2 : string -> Client) sched models extract new
  cs gd aux crs kwargs w :
  client1 (_api_key (self w)) = client2 (_api_key (self w)) ->
  invoke_async client1 sched models extract new cs gd aux crs kwargs w =
  invoke_async client2 sched models extract new cs gd aux crs kwargs w.
Proof.
  intros Hkey. unfold invoke_async.
  apply (retrying_agree (fun w0 => _api_key (self w0) = _api_key (self w))).
  - intros w0 Hw0. unfold invoke_async_body.
    rewrite !bind_get_self. cbv zeta. by rewrite Hw0, Hkey.
  - intros w0 w1 r Hw0 Hrun.
    apply leaves_body in Hrun as (Ha & _). congruence.
  - intros n e w0 Hw0. by rewrite slept_run.
  - done.
Qed.

(* ===================================================================== *)
(** ** The further properties at concrete calls *)
(* ===================================================================== *)

Ltac by_running := vm_compute; reflexivity.

Lemma X1_call_model_overrides_stored_witness :
  let w := Stub.start (Some "gemini-2.5-pro") false in
  let kwargs := <["model" := PyStr "gemini-2.5-flash"]> ∅ in
  let run :=
    invoke_async (Stub.replying (Stub.reply [])) Stub.in_order Stub.MODELS
      Stub.no_block Models.construct "challenge.png" "grid.png" PyNone None kwargs w in
  let m := PyStr "gemini-2.5-flash" in
  _model (self w) = Some "gemini-2.5-pro" /\
  m <> PyNone /\
  (forall v, kwargs !! "model" = Some v -> m = v).
Proof.
  intros w kwargs run m.
  destruct (X1_call_model_overrides_stored
              (Stub.replying (Stub.reply [])) Stub.in_order Stub.MODELS
              Stub.no_block Models.construct "challenge.png" "grid.png" PyNone None kwargs
              w (from_option fst w run)
              (from_option snd (Raise (ValueError "")) run)
              m
              [ {| role := "user";
                   parts := [from_uri "files/challenge.png" "image/png";
                             from_uri "files/grid.png" "image/png"] |} ]
              (make_config Stub.MODELS m ∅)
              (Return (Stub.reply [])))
    as (Hnone & Hcall & _).
  - by_running.
  - find_event.
  - auto.
Defined.

Lemma X2_explicit_none_masks_stored_model_witness :
  let w := Stub.start (Some "gemini-2.5-pro") false in
  let e := ValueError NO_MODEL_MESSAGE in
  invoke_async (Stub.replying (Stub.reply [])) Stub.in_order Stub.MODELS
    Stub.no_block Models.construct "challenge.png" "grid.png" PyNone None
    (<["model" := PyNone]> ∅) w =
  Some (with_trace [EvWarning 1 e; EvSleep 3; EvWarning 2 e; EvSleep 3] w,
        Raise (RetryError e)).
Proof.
  intros w e.
  apply (X2_explicit_none_masks_stored_model
           (Stub.replying (Stub.reply [])) Stub.in_order Stub.MODELS
           Stub.no_block Models.construct "challenge.png" "grid.png" PyNone None
           (<["model" := PyNone]> ∅) w).
  reflexivity.
Defined.

Lemma X3_every_request_is_deterministic_single_turn_witness :
  let w := Stub.start (Some "gemini-2.5-pro") true in
  let cfg :=
    set_response_format "application/json" ImageAreaSelectChallenge_schema
      (make_config Stub.MODELS (PyStr "gemini-2.5-pro") ∅) in
  temperature cfg = 0%Z /\ system_instruction cfg = Some THINKING_PROMPT.
Proof.
  intros w cfg.
  set (run :=
    invoke_async (Stub.flaky (ProviderError "429") (Stub.reply []))
      Stub.in_order Stub.MODELS Stub.no_block Models.construct "challenge.png" "grid.png"
      (PyStr "hint") None ∅ w).
  destruct (X3_every_request_is_deterministic_single_turn
              (Stub.flaky (ProviderError "429") (Stub.reply []))
              Stub.in_order Stub.MODELS Stub.no_block Models.construct
              "challenge.png" "grid.png" (PyStr "hint") None ∅
              w (from_option fst w run)
              (from_option snd (Raise (ValueError "")) run)
              (PyStr "gemini-2.5-pro")
              [ {| role := "user";
                   parts := [from_uri "files/challenge.png" "image/png";
                             from_uri "files/grid.png" "image/png";
                             from_text "hint"] |} ]
              cfg (Return (Stub.reply [])))
    as (Ht & Hs & _).
  - by_running.
  - find_event.
  - auto.
Defined.

Lemma X4_schema_mode_iff_witness :
  let w := Stub.start (Some "gemini-2.5-pro") false in
  let cfg :=
    set_response_format "application/json" ImageAreaSelectChallenge_schema
      (make_config Stub.MODELS (PyStr "gemini-2.5-pro") ∅) in
  response_mime_type cfg = Some "application/json" /\
  response_schema cfg = Some ImageAreaSelectChallenge_schema.
Proof.
  intros w cfg.
  set (run :=
    invoke_async (Stub.replying (Stub.reply [])) Stub.in_order Stub.MODELS
      Stub.no_block Models.construct "challenge.png" "grid.png" PyNone (Some true) ∅ w).
  apply (X4_schema_mode_iff
           (Stub.replying (Stub.reply [])) Stub.in_order Stub.MODELS
           Stub.no_block Models.construct "challenge.png" "grid.png" PyNone (Some true) ∅
           w (from_option fst w run)
           (from_option snd (Raise (ValueError "")) run)
           (PyStr "gemini-2.5-pro")
           [ {| role := "user";
                parts := [from_uri "files/challenge.png" "image/png";
                          from_uri "files/grid.png" "image/png"] |} ]
           cfg (Return (Stub.reply []))).
  - by_running.
  - find_event.
  - split; reflexivity.
Defined.

Lemma X5_reply_is_stored_then_decoded_witness :
  let w := Stub.start (Some "gemini-2.5-pro") true in
  let point := {| Models.x := 12; Models.y := 34 |} in
  let resp := Stub.text_reply [] in
  let run :=
    invoke_async_body (Stub.replying resp) Stub.reversed Stub.MODELS
      Stub.reading Models.construct "challenge.png" "grid.png" PyNone
      (Some false) ∅ w in
  parsed resp = Some (Stub.answer []) /\
  _response (self run.1) = Some resp /\
  run.2 = Return (Stub.answer [point]).
Proof.
  intros w point resp run.
  destruct (X5_reply_is_stored_then_decoded
              (Stub.replying resp) Stub.reversed Stub.MODELS
              Stub.reading Models.construct "challenge.png" "grid.png" PyNone
              (Some false) ∅
              w run.1 run.2
              (PyStr "gemini-2.5-pro")
              [ {| role := "user";
                   parts := [from_uri "files/challenge.png" "image/png";
                             from_uri "files/grid.png" "image/png"] |} ]
              (make_config Stub.MODELS (PyStr "gemini-2.5-pro") ∅)
              resp)
    as (Hstored & Htext & _).
  - apply surjective_pairing.
  - find_event.
  - split; [reflexivity |]. split; [exact Hstored |].
    rewrite (Htext eq_refl). vm_compute. reflexivity.
Defined.

Lemma X6_retry_log_shape_witness :
  let w := Stub.start (Some "gemini-2.5-pro") false in
  let e := ProviderError "503" in
  let run :=
    invoke_async (Stub.failing e) Stub.in_order Stub.MODELS
      Stub.no_block Models.construct "challenge.png" "grid.png" PyNone None ∅ w in
  let w' := from_option fst w run in
  exists e1 e2 e3,
    retry_log (new_events w w') =
      [EvWarning 1 e1; EvSleep 3; EvWarning 2 e2; EvSleep 3] /\
    RetryError e = RetryError e3.
Proof.
  intros w e run w'.
  assert (run = Some (w', Raise (RetryError e))) as Hrun by by_running.
  apply (proj2
           (X6_retry_log_shape
              (Stub.failing e) Stub.in_order Stub.MODELS
              Stub.no_block Models.construct "challenge.png" "grid.png" PyNone None ∅
              w w' (Raise (RetryError e)) Hrun)
           (RetryError e) eq_refl).
Defined.

Lemma X7_each_attempt_uploads_again_witness :
  let w := Stub.start (Some "gemini-2.5-pro") false in
  let run :=
    invoke_async (Stub.flaky (ProviderError "429") (Stub.reply []))
      Stub.in_order Stub.MODELS Stub.no_block Models.construct "challenge.png" "grid.png"
      PyNone None ∅ w in
  let d := new_events w (from_option fst w run) in
  let attempts := S (length (List.filter is_warning d)) in
  length (List.filter is_upload_start d) = (2 * attempts)%nat /\
  (length (List.filter is_generate d) <= attempts)%nat /\
  (attempts <= 3)%nat.
Proof.
  intros w run.
  apply (X7_each_attempt_uploads_again
           (Stub.flaky (ProviderError "429") (Stub.reply []))
           Stub.in_order Stub.MODELS Stub.no_block Models.construct "challenge.png" "grid.png"
           PyNone None ∅ w (from_option fst w run)
           (from_option snd (Raise (ValueError "")) run)).
  - reflexivity.
  - by_running.
Defined.

Lemma X8_other_kwargs_are_ignored_witness :
  let w := Stub.start (Some "gemini-2.5-pro") false in
  let k1 : gmap string PyVal :=
    <["timeout" := PyInt 30]> (<["thinking_budget" := PyInt 512]> ∅) in
  let k2 : gmap string PyVal := <["thinking_budget" := PyInt 512]> ∅ in
  invoke_async (Stub.replying (Stub.reply [])) Stub.in_order Stub.MODELS
    Stub.no_block Models.construct "challenge.png" "grid.png" PyNone None k1 w =
  invoke_async (Stub.replying (Stub.reply [])) Stub.in_order Stub.MODELS
    Stub.no_block Models.construct "challenge.png" "grid.png" PyNone None k2 w.
Proof.
  intros w k1 k2.
  apply (X8_other_kwargs_are_ignored
           (Stub.replying (Stub.reply [])) Stub.in_order Stub.MODELS
           Stub.no_block Models.construct "challenge.png" "grid.png" PyNone None k1 k2 w);
    reflexivity.
Defined.

Lemma X9_earlier_response_is_never_read_witness :
  let w := Stub.start (Some "gemini-2.5-pro") false in
  let v :=
    {| trace := [];
       self := with_response (Stub.reply []) (self w) |} in
  let e := ProviderError "503" in
  exists w' v' r,
    invoke_async (Stub.failing e) Stub.in_order Stub.MODELS
      Stub.no_block Models.construct "challenge.png" "grid.png" PyNone None ∅ w =
      Some (w', r) /\
    invoke_async (Stub.failing e) Stub.in_order Stub.MODELS
      Stub.no_block Models.construct "challenge.png" "grid.png" PyNone None ∅ v =
      Some (v', r) /\
    new_events w w' = new_events v v' /\
    same_but_response w' v'.
Proof.
  intros w v e.
  apply (X9_earlier_response_is_never_read
           (Stub.failing e) Stub.in_order Stub.MODELS
           Stub.no_block Models.construct "challenge.png" "grid.png" PyNone None ∅ w v).
  repeat split; reflexivity.
Defined.

Lemma X10_attempt_without_reply_leaves_solver_witness :
  let w := Stub.start (Some "gemini-2.5-pro") false in
  let e := ProviderError "503" in
  let run :=
    invoke_async_body (Stub.failing e) Stub.in_order Stub.MODELS
      Stub.no_block Models.construct "challenge.png" "grid.png" PyNone None ∅ w in
  self run.1 = self w /\ exists e', run.2 = Raise e'.
Proof.
  intros w e run.
  apply (X10_attempt_without_reply_leaves_solver
           (Stub.failing e) Stub.in_order Stub.MODELS
           Stub.no_block Models.construct "challenge.png" "grid.png" PyNone None ∅
           w run.1 run.2 (surjective_pairing _)).
  intros m c cfg resp Hin. vm_compute in Hin.
  repeat (apply elem_of_cons in Hin as [Hin | Hin]; [discriminate Hin |]).
  by apply elem_of_nil in Hin.
Defined.

Lemma X11_default_solver_uses_default_model_and_free_text_witness :
  let w :=
    {| trace := []; self := init "gemini-2.5-pro" "key" None None |} in
  let run :=
    invoke_async (Stub.replying (Stub.reply [])) Stub.in_order Stub.MODELS
      Stub.no_block Models.construct "challenge.png" "grid.png" PyNone None ∅ w in
  let cfg := make_config Stub.MODELS (PyStr "gemini-2.5-pro") ∅ in
  response_mime_type cfg = None /\ response_schema cfg = None.
Proof.
  intros w run cfg.
  destruct (X11_default_solver_uses_default_model_and_free_text
              (Stub.replying (Stub.reply [])) Stub.in_order Stub.MODELS
              Stub.no_block Models.construct "gemini-2.5-pro" "key"
              "challenge.png" "grid.png" PyNone ∅
              w (from_option fst w run)
              (from_option snd (Raise (ValueError "")) run))
    as (_ & Hcalls).
  - reflexivity.
  - reflexivity.
  - reflexivity.
  - by_running.
  - destruct (Hcalls (PyStr "gemini-2.5-pro")
                [ {| role := "user";
                     parts := [from_uri "files/challenge.png" "image/png";
                               from_uri "files/grid.png" "image/png"] |} ]
                cfg (Return (Stub.reply []))) as (_ & Hmime & Hschema);
      [find_event | auto].
Defined.

Lemma X12_call_ends_with_last_attempt_witness :
  let w := Stub.start (Some "gemini-2.5-pro") false in
  let e := ProviderError "503" in
  let run :=
    invoke_async (Stub.failing e) Stub.in_order Stub.MODELS
      Stub.no_block Models.construct "challenge.png" "grid.png" PyNone None ∅ w in
  let w' := from_option fst w run in
  exists w0 r0,
    leaves w w0 /\
    invoke_async_body (Stub.failing e) Stub.in_order Stub.MODELS
      Stub.no_block Models.construct "challenge.png" "grid.png" PyNone None ∅ w0 = (w', r0) /\
    exists e0, r0 = Raise e0 /\ RetryError e = RetryError e0.
Proof.
  intros w e run w'.
  apply (X12_call_ends_with_last_attempt
           (Stub.failing e) Stub.in_order Stub.MODELS
           Stub.no_block Models.construct "challenge.png" "grid.png" PyNone None ∅
           w w' (Raise (RetryError e))).
  by_running.
Defined.

Lemma X13_only_the_stored_key_is_used_witness :
  let w := Stub.start (Some "gemini-2.5-pro") false in
  let good := Stub.replying (Stub.reply []) in
  let other (key : string) :=
    if bool_decide (key = "key") then good key
    else Stub.failing (ProviderError "401") key in
  invoke_async good Stub.in_order Stub.MODELS Stub.no_block Models.construct
    "challenge.png" "grid.png" PyNone None ∅ w =
  invoke_async other Stub.in_order Stub.MODELS Stub.no_block Models.construct
    "challenge.png" "grid.png" PyNone None ∅ w.
Proof.
  intros w good other.
  apply (X13_only_the_stored_key_is_used good other).
  reflexivity.
Defined.

(** What the result class modelled from the spec coerces: a digit string, a
    bool and a float without fractional part become coordinates; a float
    with a fractional part and a string that writes no integer do not. *)
Example coordinates_are_coerced :
  Models.coerce_int (PyStr "12") = Some 12%Z /\
  Models.coerce_int (PyStr "-7") = Some (-7)%Z /\
  Models.coerce_int (PyBool true) = Some 1%Z /\
  Models.coerce_int (PyFloat 3 2) = Some 12%Z /\
  Models.coerce_int (PyFloat 24 (-1)) = Some 12%Z /\
  Models.coerce_int (PyFloat 25 (-1)) = None /\
  Models.coerce_int (PyStr "12px") = None /\
  Models.coerce_int PyNone = None.
Proof. repeat split; reflexivity. Qed.
